(** * YouTube Tools API: video-id extraction, metadata, captions, timestamps

    A shallow embedding of [src/main.py] (class [YouTubeTools]) together
    with the parts of CPython's [urllib.parse] (3.11) that
    [get_youtube_video_id] calls: [urlparse], the [hostname] property,
    [parse_qs] and, for the oEmbed request, [urlencode].

    Text.  A Python [str] is represented by its UTF-8 encoding in a Rocq
    [string]: an ASCII character is one [ascii] below 128, any other code
    point is a run of [ascii]s from 128 up.  Every delimiter the code looks
    for is ASCII, so searching and splitting act on the encoding exactly as
    Python acts on the code points.  Four library steps depend on Unicode
    tables or on the [ipaddress] module; they are gathered in the class
    [PyLib] and every theorem holds for all its instances.  A [str] that
    holds a lone surrogate has no UTF-8 encoding and is not represented.

    Effects.  The two collaborators (the transcript source and the oEmbed
    endpoint) are functions handed to the operations; an operation returns
    the outbound calls it made, in order, next to its outcome. *)

From Stdlib Require Import ZArith QArith Ascii String Lia.
From stdpp Require Import base option list strings gmap.


(** ** Exceptions and results *)

(** What a collaborator raises: the exception's class name and [str(e)]. *)
Record failure := Failure { kind : string; message : string }.

Inductive exn :=
| ValueError (msg : string)
| IndexError (msg : string)
| AttributeError (msg : string)
| HTTPException (status_code : Z) (detail : string)
| Upstream (f : failure).

Inductive Exc (A : Type) :=
| Ok (a : A)
| Raise (e : exn).
Arguments Ok {A} a.
Arguments Raise {A} e.

(** Sequencing stops at the first exception; [x ← m; k] is stdpp's
    notation for it. *)
#[global] Instance exc_ret : MRet Exc := λ A a, Ok a.
#[global] Instance exc_bind : MBind Exc := λ A B k m,
  match m with Ok a => k a | Raise e => Raise e end.

(** ** Python string primitives on [string] *)

Module Py.

Definition is_ascii_char (c : ascii) : bool := (nat_of_ascii c <? 128)%nat.

Definition isascii (s : string) : bool :=
  forallb is_ascii_char (list_ascii_of_string s).

Definition is_upper (c : ascii) : bool :=
  ((65 <=? nat_of_ascii c) && (nat_of_ascii c <=? 90))%nat.

Definition is_lower (c : ascii) : bool :=
  ((97 <=? nat_of_ascii c) && (nat_of_ascii c <=? 122))%nat.

Definition is_digit (c : ascii) : bool :=
  ((48 <=? nat_of_ascii c) && (nat_of_ascii c <=? 57))%nat.

(** [c.isascii() and c.isalpha()] *)
Definition is_ascii_alpha (c : ascii) : bool := is_upper c || is_lower c.

Definition lower_char (c : ascii) : ascii :=
  if is_upper c then ascii_of_nat (nat_of_ascii c + 32) else c.

Fixpoint map_str (f : ascii → ascii) (s : string) : string :=
  match s with
  | "" => ""
  | String c s' => String (f c) (map_str f s')
  end.

(** [c in s] *)
Fixpoint contains (c : ascii) (s : string) : bool :=
  match s with
  | "" => false
  | String x s' => Ascii.eqb x c || contains c s'
  end.

(** [s.partition(c)]: the separator comes back empty when [c] is absent. *)
Fixpoint partition (c : ascii) (s : string) : string * string * string :=
  match s with
  | "" => ("", "", "")
  | String x s' =>
      if Ascii.eqb x c then ("", String c "", s')
      else let '(a, sep, b) := partition c s' in (String x a, sep, b)
  end.

(** [s.rpartition(c)]: when [c] is absent the whole string is the third
    component. *)
Fixpoint rpartition (c : ascii) (s : string) : string * string * string :=
  match s with
  | "" => ("", "", "")
  | String x s' =>
      let '(a, sep, b) := rpartition c s' in
      match sep with
      | String _ _ => (String x a, sep, b)
      | "" => if Ascii.eqb x c then ("", String c "", s')
              else ("", "", String x b)
      end
  end.

(** [s.split(c)] *)
Fixpoint split (c : ascii) (s : string) : list string :=
  match s with
  | "" => [""]
  | String x s' =>
      if Ascii.eqb x c then "" :: split c s'
      else match split c s' with
           | h :: t => String x h :: t
           | [] => [String x ""]
           end
  end.

(** [s.split(c, 1)] *)
Definition split_once (c : ascii) (s : string) : list string :=
  let '(a, sep, b) := partition c s in
  match sep with "" => [a] | String _ _ => [a; b] end.

(** [s.replace(c, "")] *)
Fixpoint remove (c : ascii) (s : string) : string :=
  match s with
  | "" => ""
  | String x s' => if Ascii.eqb x c then remove c s' else String x (remove c s')
  end.

(** [s.replace(c, d)] *)
Definition replace (c d : ascii) (s : string) : string :=
  map_str (fun x => if Ascii.eqb x c then d else x) s.

(** [s[n:]] *)
Fixpoint drop (n : nat) (s : string) : string :=
  match n, s with
  | O, _ => s
  | S _, "" => ""
  | S n', String _ s' => drop n' s'
  end.

(** [s[:n]] *)
Fixpoint take (n : nat) (s : string) : string :=
  match n, s with
  | O, _ => ""
  | S _, "" => ""
  | S n', String x s' => String x (take n' s')
  end.

(** [s.startswith(p)] *)
Fixpoint startswith (p s : string) : bool :=
  match p, s with
  | "", _ => true
  | String _ _, "" => false
  | String a p', String b s' => Ascii.eqb a b && startswith p' s'
  end.

(** [s.lstrip(chars)] for the set of characters satisfying [strip]. *)
Fixpoint lstrip (strip : ascii → bool) (s : string) : string :=
  match s with
  | "" => ""
  | String x s' => if strip x then lstrip strip s' else s
  end.

(** The longest prefix free of [stop] characters, and the rest. *)
Fixpoint break (stop : ascii → bool) (s : string) : string * string :=
  match s with
  | "" => ("", "")
  | String x s' =>
      if stop x then ("", s)
      else let '(a, b) := break stop s' in (String x a, b)
  end.

(** [sep.join(l)] *)
Fixpoint join (sep : string) (l : list string) : string :=
  match l with
  | [] => ""
  | [x] => x
  | x :: l' => x +:+ sep +:+ join sep l'
  end.

(** Truth value of a [str]. *)
Definition truthy (s : string) : bool :=
  match s with "" => false | String _ _ => true end.

End Py.

(** ** [urllib.parse] *)

(** The library steps that are not modelled: each field is consulted only
    on input that has a bracket or a character outside ASCII. *)
Class PyLib := {
  (** The message of the [ValueError] that [_check_bracketed_host(h)]
      raises, or [None] when the [ipaddress] module or the IPvFuture pattern
      accepts [h]. *)
  bracketed_host_error : string → option string;
  (** NFKC normalisation of a non-ASCII netloc, with [@ : # ?] removed,
      changes it and brings in one of [/ ? # @ :]. *)
  nfkc_brings_delimiter : string → bool;
  (** [s.lower()] on a string that is not ASCII. *)
  lower_unicode : string → string;
  (** [bs.decode('utf-8', 'replace')] on bytes that are not all ASCII. *)
  decode_replace : string → string
}.

Module UrlLib.

Record ParseResult := {
  scheme : string;
  netloc : string;
  path : string;
  params : string;
  query : string;
  fragment : string
}.

Definition uses_params : list string :=
  [""; "ftp"; "hdl"; "prospero"; "http"; "imap"; "https"; "shttp"; "rtsp";
   "rtspu"; "sip"; "sips"; "mms"; "sftp"; "tel"].

(** [c in scheme_chars] *)
Definition scheme_char (c : ascii) : bool :=
  Py.is_lower c || Py.is_upper c || Py.is_digit c
  || Py.contains c "+-.".

(** [c in _WHATWG_C0_CONTROL_OR_SPACE] *)
Definition c0_control_or_space (c : ascii) : bool :=
  (nat_of_ascii c <=? 32)%nat.

Definition TAB : ascii := "009".
Definition LF : ascii := "010".
Definition CR : ascii := "013".

Section WithLib.
Context `{PyLib}.

(** [str.lower] *)
Definition lower (s : string) : string :=
  if Py.isascii s then Py.map_str Py.lower_char s else lower_unicode s.

(** [_splitnetloc(url, 2)]: [url] starts with two slashes; the netloc
    runs to the first of [/ ? #] after them, or to the end. *)
Definition _splitnetloc (url : string) : string * string :=
  Py.break (fun c => Py.contains c "/?#") (Py.drop 2 url).

Definition _check_bracketed_host (hostname : string) : Exc unit :=
  match bracketed_host_error hostname with
  | Some msg => Raise (ValueError msg)
  | None => Ok ()
  end.

Definition _check_bracketed_netloc (netloc : string) : Exc unit :=
  let '(_, _, hostname_and_port) := Py.rpartition "@" netloc in
  let '(before_bracket, have_open_br, bracketed) :=
    Py.partition "[" hostname_and_port in
  if Py.truthy have_open_br then
    if Py.truthy before_bracket then Raise (ValueError "Invalid IPv6 URL")
    else
      let '(hostname, _, port) := Py.partition "]" bracketed in
      if Py.truthy port && negb (Py.startswith ":" port)
      then Raise (ValueError "Invalid IPv6 URL")
      else _check_bracketed_host hostname
  else
    let '(hostname, _, port) := Py.partition ":" hostname_and_port in
    _check_bracketed_host hostname.

Definition _checknetloc (netloc : string) : Exc unit :=
  if negb (Py.truthy netloc) || Py.isascii netloc then Ok ()
  else if nfkc_brings_delimiter netloc
       then Raise (ValueError ("netloc '" +:+ netloc +:+ "' contains invalid "
                               +:+ "characters under NFKC normalization"))
       else Ok ().

(** [urlsplit(url)] with the default [scheme=''] and
    [allow_fragments=True]; the result is
    [(scheme, netloc, path, query, fragment)]. *)
Definition urlsplit (url : string)
  : Exc (string * string * string * string * string) :=
  let url := Py.lstrip c0_control_or_space url in
  let url := Py.remove LF (Py.remove CR (Py.remove TAB url)) in
  let '(scheme, url) :=
    let '(before, colon, after) := Py.partition ":" url in
    match colon, before with
    | String _ _, String c0 _ =>
        (* i > 0 *)
        if Py.is_ascii_alpha c0
           && forallb scheme_char (list_ascii_of_string before)
        then (Py.map_str Py.lower_char before, after)
        else ("", url)
    | _, _ => ("", url)
    end in
  (r ← (if Py.startswith "//" url then
          let '(netloc, rest) := _splitnetloc url in
          let ob := Py.contains "[" netloc in
          let cb := Py.contains "]" netloc in
          if (ob && negb cb) || (cb && negb ob)
          then Raise (ValueError "Invalid IPv6 URL")
          else
            (_ ← (if ob && cb then _check_bracketed_netloc netloc
                  else Ok ()) ;
             Ok (netloc, rest))
        else Ok ("", url)) ;
   let '(netloc, url) := r in
   let '(url, fragment) :=
     if Py.contains "#" url
     then let '(a, _, b) := Py.partition "#" url in (a, b)
     else (url, "") in
   let '(url, query) :=
     if Py.contains "?" url
     then let '(a, _, b) := Py.partition "?" url in (a, b)
     else (url, "") in
   _ ← _checknetloc netloc ;
   Ok (scheme, netloc, url, query, fragment)).

(** [_splitparams(url)], called only when [';' in url]. *)
Definition _splitparams (url : string) : string * string :=
  if Py.contains "/" url then
    (* i = url.find(';', url.rfind('/')) *)
    let '(head, slash, last) := Py.rpartition "/" url in
    if Py.contains ";" last then
      let '(a, _, b) := Py.partition ";" last in
      (head +:+ slash +:+ a, b)
    else (url, "")
  else
    let '(a, _, b) := Py.partition ";" url in (a, b).

(** [urlparse(url)] *)
Definition urlparse (url : string) : Exc ParseResult :=
  (r ← urlsplit url ;
   let '(scheme, netloc, url, query, fragment) := r in
   let '(url, params) :=
     if bool_decide (scheme ∈ uses_params) && Py.contains ";" url
     then _splitparams url
     else (url, "") in
   Ok {| scheme := scheme; netloc := netloc; path := url;
         params := params; query := query; fragment := fragment |}).

(** [_hostinfo[0]] *)
Definition _hostinfo (netloc : string) : string :=
  let '(_, _, hostinfo) := Py.rpartition "@" netloc in
  let '(_, have_open_br, bracketed) := Py.partition "[" hostinfo in
  if Py.truthy have_open_br then
    let '(hostname, _, _) := Py.partition "]" bracketed in hostname
  else
    let '(hostname, _, _) := Py.partition ":" hostinfo in hostname.

(** The [hostname] property: [None] when the host part is empty. *)
Definition hostname (p : ParseResult) : option string :=
  let hostname := _hostinfo (netloc p) in
  if negb (Py.truthy hostname) then None
  else
    let '(hostname, percent, zone) := Py.partition "%" hostname in
    Some (lower hostname +:+ percent +:+ zone).

(** [bs.decode('utf-8', 'replace')] *)
Definition decode (bs : string) : string :=
  if Py.isascii bs then bs else decode_replace bs.

Definition hex_value (c : ascii) : option nat :=
  let n := nat_of_ascii c in
  if Py.is_digit c then Some (n - 48)
  else if (65 <=? n)%nat && (n <=? 70)%nat then Some (n - 55)
  else if (97 <=? n)%nat && (n <=? 102)%nat then Some (n - 87)
  else None.

(** One piece after a [%] in [unquote_to_bytes]: the byte of the two hex
    digits it starts with, or the [%] put back. *)
Definition unquote_item (item : string) : string :=
  match item with
  | String a (String b rest) =>
      match hex_value a, hex_value b with
      | Some x, Some y => String (ascii_of_nat (16 * x + y)) rest
      | _, _ => String "%" item
      end
  | _ => String "%" item
  end.

Definition unquote_to_bytes (s : string) : string :=
  match Py.split "%" s with
  | [] => s
  | first :: items => first +:+ Py.join "" (unquote_item <$> items)
  end.

(** [_asciire.split]: the maximal runs of ASCII and of other characters,
    each tagged with whether it is ASCII. *)
Fixpoint ascii_runs (s : string) : list (bool * string) :=
  match s with
  | "" => []
  | String c s' =>
      let a := Py.is_ascii_char c in
      match ascii_runs s' with
      | (b, r) :: rest =>
          if Bool.eqb a b then (b, String c r) :: rest
          else (a, String c "") :: (b, r) :: rest
      | [] => [(a, String c "")]
      end
  end.

(** [unquote(string)] *)
Definition unquote (s : string) : string :=
  if negb (Py.contains "%" s) then s
  else Py.join ""
         ((λ '(a, run), if a : bool then decode (unquote_to_bytes run)
                        else run) <$> ascii_runs s).

(** [parse_qsl(qs)] with the defaults: blank values dropped, no strict
    parsing, separator [&]. *)
Definition parse_qsl (qs : string) : list (string * string) :=
  let query_args := if Py.truthy qs then Py.split "&" qs else [] in
  foldl (λ r name_value,
           if negb (Py.truthy name_value) then r
           else match Py.split_once "=" name_value with
                | [n; v] =>
                    if Py.truthy v
                    then r ++ [(unquote (Py.replace "+" " " n),
                                unquote (Py.replace "+" " " v))]
                    else r
                | _ => r
                end)
        [] query_args.

(** [parse_qs(qs)] *)
Definition parse_qs (qs : string) : gmap string (list string) :=
  foldl (λ parsed_result '(name, value),
           match parsed_result !! name with
           | Some l => <[name := l ++ [value]]> parsed_result
           | None => <[name := [value]]> parsed_result
           end)
        ∅ (parse_qsl qs).

End WithLib.

Definition hex_digit (n : nat) : ascii :=
  if (n <? 10)%nat then ascii_of_nat (48 + n) else ascii_of_nat (55 + n).

(** [c in _ALWAYS_SAFE] *)
Definition always_safe (c : ascii) : bool :=
  Py.is_upper c || Py.is_lower c || Py.is_digit c || Py.contains c "_.-~".

(** [quote_plus(s)]: safe bytes stay, a space becomes [+], any other byte
    becomes [%XX]. *)
Fixpoint quote_plus (s : string) : string :=
  match s with
  | "" => ""
  | String c s' =>
      (if always_safe c then String c ""
       else if Ascii.eqb c " " then "+"
       else let n := nat_of_ascii c in
            String "%" (String (hex_digit (n / 16))
                               (String (hex_digit (n mod 16)) "")))
      +:+ quote_plus s'
  end.

(** [urlencode(query)] for a dict of [str] to [str], in insertion order. *)
Definition urlencode (query : list (string * string)) : string :=
  Py.join "&" ((λ '(k, v), quote_plus k +:+ "=" +:+ quote_plus v) <$> query).

End UrlLib.

(** ** Data exchanged with the collaborators *)

(** A caption record of the transcript source; offsets are in seconds. *)
Record CaptionLine := { text : string; start : Q; duration : Q }.

(** A decoded JSON document, as [json.loads] returns it. *)
#[warnings="-register-all"]
Inductive json :=
| JNull
| JBool (b : bool)
| JInt (z : Z)
| JFloat (q : Q)
| JString (s : string)
| JArray (l : list json)
| JObject (m : gmap string json).

(** The outbound calls an operation can make. [languages] is [None] when
    the keyword argument is not passed at all. *)
Inductive call :=
| GetTranscript (video_id : string) (languages : option (list string))
| UrlOpen (full_url : string).

(** The state of the outside world during one request: what the transcript
    source answers to [get_transcript], and what reading and decoding the
    oEmbed response ([urlopen], [read], [decode], [json.loads]) gives. *)
Record Collaborators := {
  transcript_source : string → option (list string) → failure + list CaptionLine;
  oembed_provider : string → failure + json
}.

(** An operation's run: the outbound calls made, in order, and how it
    ended. *)
Record Run (A : Type) := { calls : list call; outcome : Exc A }.
Arguments calls {A} r.
Arguments outcome {A} r.

#[global] Instance run_ret : MRet Run := λ A a,
  {| calls := []; outcome := Ok a |}.
#[global] Instance run_bind : MBind Run := λ A B k m,
  match outcome m with
  | Ok a => {| calls := calls m ++ calls (k a); outcome := outcome (k a) |}
  | Raise e => {| calls := calls m; outcome := Raise e |}
  end.

Definition raise {A} (e : exn) : Run A := {| calls := []; outcome := Raise e |}.

Definition lift {A} (m : Exc A) : Run A := {| calls := []; outcome := m |}.

(** [try: body  except Exception as e: handler(e)] *)
Definition try_except {A} (body : Run A) (handler : exn → Run A) : Run A :=
  match outcome body with
  | Ok a => body
  | Raise e => {| calls := calls body ++ calls (handler e);
                  outcome := outcome (handler e) |}
  end.

(** ** Formatting *)

Module Fmt.

Definition digit_char (d : Z) : ascii := ascii_of_nat (48 + Z.to_nat d).

(** The decimal digits of a natural number, most significant first;
    [fuel] bounds the number of digits. *)
Fixpoint digits (fuel : nat) (n : Z) (acc : string) : string :=
  match fuel with
  | O => acc
  | S fuel' =>
      let acc' := String (digit_char (n mod 10)%Z) acc in
      if (n <? 10)%Z then acc' else digits fuel' (n / 10)%Z acc'
  end.

Definition str_nat (n : Z) : string := digits (S (Z.to_nat (Z.log2 n))) n "".

(** [str(z)] for an [int] *)
Definition str_int (z : Z) : string :=
  if (z <? 0)%Z then String "-" (str_nat (- z)%Z) else str_nat z.

Fixpoint zeros (n : nat) : string :=
  match n with O => "" | S n' => String "0" (zeros n') end.

(** [f"{z:02d}"]: zeros go between the sign and the digits until the
    whole is two characters wide. *)
Definition format_02d (z : Z) : string :=
  let sign := if (z <? 0)%Z then "-" else "" in
  let ds := str_nat (Z.abs z) in
  sign +:+ zeros (2 - String.length sign - String.length ds) +:+ ds.

(** [int(q)] for a finite [float]: truncation toward zero. *)
Definition int_of (q : Q) : Z := Z.quot (Qnum q) (Z.pos (Qden q)).

End Fmt.

(** [str(e)] *)
Definition str_exn (e : exn) : string :=
  match e with
  | ValueError msg | IndexError msg | AttributeError msg => msg
  | HTTPException status_code detail =>
      Fmt.str_int status_code +:+ ": " +:+ detail
  | Upstream f => message f
  end.

(** ** [class YouTubeTools] *)

Module YouTubeTools.
Import UrlLib.

Section WithLib.
Context `{PyLib}.

Definition get_youtube_video_id (url : string) : Exc (option string) :=
  parsed_url ← urlparse url;
  let hostname := hostname parsed_url in
  (if bool_decide (hostname = Some "youtu.be") then
     (* path[1:]: with a hostname the path is empty or starts with "/" *)
     Ok (Some (Py.drop 1 (path parsed_url)))
   else
     if bool_decide (hostname ∈ [Some "www.youtube.com"; Some "youtube.com"])
     then
       if bool_decide (path parsed_url = "/watch") then
         let query_params := parse_qs (query parsed_url) in
         (* values = query_params.get("v", [None]); values[0] *)
         let values : list (option string) :=
           match query_params !! "v" with
           | Some values => Some <$> values
           | None => [None]
           end in
         match values with
         | v :: _ => Ok v
         | [] => Raise (IndexError "list index out of range")
         end
       else if Py.startswith "/embed/" (path parsed_url) then
         match Py.split "/" (path parsed_url) !! 2%nat with
         | Some segment => Ok (Some segment)
         | None => Raise (IndexError "list index out of range")
         end
       else if Py.startswith "/v/" (path parsed_url) then
         match Py.split "/" (path parsed_url) !! 2%nat with
         | Some segment => Ok (Some segment)
         | None => Raise (IndexError "list index out of range")
         end
       else Ok None
     else Ok None) : Exc (option string).

(** The first [try] block of the three operations; [not video_id] holds
    for [None] and for the empty string. *)
Definition resolve_video_id (url : string) : Run string :=
  try_except
    (video_id ← lift (get_youtube_video_id url);
     match video_id with
     | Some s =>
         if negb (Py.truthy s)
         then raise (HTTPException 400 "Invalid YouTube URL")
         else mret s
     | None => raise (HTTPException 400 "Invalid YouTube URL")
     end)
    (λ _, raise (HTTPException 400 "Error getting video ID from URL")).

Section WithCollaborators.
Variable W : Collaborators.

(** [YouTubeTranscriptApi.get_transcript(video_id[, languages=...])] *)
Definition get_transcript (video_id : string)
    (languages : option (list string)) : Run (list CaptionLine) :=
  {| calls := [GetTranscript video_id languages];
     outcome := match transcript_source W video_id languages with
                | inl f => Raise (Upstream f)
                | inr captions => Ok captions
                end |}.

(** [json.loads(urlopen(full_url).read().decode())] *)
Definition urlopen_json (full_url : string) : Run json :=
  {| calls := [UrlOpen full_url];
     outcome := match oembed_provider W full_url with
                | inl f => Raise (Upstream f)
                | inr video_data => Ok video_data
                end |}.

Definition type_name (v : json) : string :=
  match v with
  | JNull => "NoneType" | JBool _ => "bool" | JInt _ => "int"
  | JFloat _ => "float" | JString _ => "str" | JArray _ => "list"
  | JObject _ => "dict"
  end.

(** [video_data.get(key)] *)
Definition dict_get (video_data : json) (key : string) : Exc json :=
  match video_data with
  | JObject m => Ok (default JNull (m !! key))
  | _ => Raise (AttributeError ("'" +:+ type_name video_data
                                +:+ "' object has no attribute 'get'"))
  end.

Definition get_video_data (url : string) : Run (gmap string json) :=
  if negb (Py.truthy url) then raise (HTTPException 400 "No URL provided")
  else
    video_id ← resolve_video_id url;
    try_except
      (let params := [("format", "json");
                      ("url", "https://www.youtube.com/watch?v=" +:+ video_id)] in
       let oembed_url := "https://www.youtube.com/oembed" in
       let query_string := urlencode params in
       let full_url := oembed_url +:+ "?" +:+ query_string in
       video_data ← urlopen_json full_url;
       lift (title ← dict_get video_data "title";
             author_name ← dict_get video_data "author_name";
             author_url ← dict_get video_data "author_url";
             type ← dict_get video_data "type";
             height ← dict_get video_data "height";
             width ← dict_get video_data "width";
             version ← dict_get video_data "version";
             provider_name ← dict_get video_data "provider_name";
             provider_url ← dict_get video_data "provider_url";
             thumbnail_url ← dict_get video_data "thumbnail_url";
             Ok (list_to_map
                   [("title", title);
                    ("author_name", author_name);
                    ("author_url", author_url);
                    ("type", type);
                    ("height", height);
                    ("width", width);
                    ("version", version);
                    ("provider_name", provider_name);
                    ("provider_url", provider_url);
                    ("thumbnail_url", thumbnail_url)])))
      (λ e, raise (HTTPException 500
                     ("Error getting video data: " +:+ str_exn e))).

(** Truth value of an [Optional[List[str]]]. *)
Definition truthy_languages (languages : option (list string)) : bool :=
  match languages with Some (_ :: _) => true | _ => false end.

(** [languages or fallback] *)
Definition languages_or (languages : option (list string))
    (fallback : list string) : list string :=
  match languages with Some (l :: ls) => l :: ls | _ => fallback end.

Definition get_video_captions (url : string)
    (languages : option (list string)) : Run string :=
  if negb (Py.truthy url) then raise (HTTPException 400 "No URL provided")
  else
    video_id ← resolve_video_id url;
    try_except
      (captions ← (if truthy_languages languages
                   then get_transcript video_id languages
                   else get_transcript video_id None);
       match captions with
       | _ :: _ => mret (Py.join " " (text <$> captions))
       | [] => mret "No captions found for video"
       end)
      (λ e, raise (HTTPException 500
                     ("Error getting captions for video: " +:+ str_exn e))).

(** One pass of the loop body of [get_video_timestamps]. *)
Definition timestamp_entry (line : CaptionLine) : string :=
  let start := Fmt.int_of (start line) in
  let '(minutes, seconds) := (start / 60, start mod 60)%Z in
  Fmt.str_int minutes +:+ ":" +:+ Fmt.format_02d seconds
    +:+ " - " +:+ text line.

Definition get_video_timestamps (url : string)
    (languages : option (list string)) : Run (list string) :=
  if negb (Py.truthy url) then raise (HTTPException 400 "No URL provided")
  else
    video_id ← resolve_video_id url;
    try_except
      (captions ← get_transcript video_id
                    (Some (languages_or languages ["en"]));
       let timestamps :=
         foldl (λ timestamps line, timestamps ++ [timestamp_entry line])
               [] captions in
       mret timestamps)
      (λ e, raise (HTTPException 500
                     ("Error generating timestamps: " +:+ str_exn e))).

End WithCollaborators.
End WithLib.
End YouTubeTools.

(** ** The request handlers *)

Module App.

(** [class YouTubeRequest], after validation: [languages] is [None] when
    the body does not give it. *)
Record YouTubeRequest := {
  url : string;
  languages : option (list string)
}.

Section WithLib.
Context `{PyLib}.
Variable W : Collaborators.

(** [POST /video-data] *)
Definition get_video_data (request : YouTubeRequest)
    : Run (gmap string json) :=
  YouTubeTools.get_video_data W (url request).

(** [POST /video-captions] *)
Definition get_video_captions (request : YouTubeRequest) : Run string :=
  YouTubeTools.get_video_captions W (url request) (languages request).

(** [POST /video-timestamps] *)
Definition get_video_timestamps (request : YouTubeRequest)
    : Run (list string) :=
  YouTubeTools.get_video_timestamps W (url request) (languages request).

End WithLib.
End App.

(** An instance for running the model on ASCII, bracket-free input, where
    no field is consulted. *)
Definition ascii_only : PyLib :=
  {| bracketed_host_error := λ _, None;
     nfkc_brings_delimiter := λ _, false;
     lower_unicode := λ s, s;
     decode_replace := λ s, s |}.

(** ** Specification-side definitions *)

Module Spec.
Import UrlLib YouTubeTools.

(** The URL yields a usable video identifier: extraction returns a
    non-empty string. *)
Definition resolves `{PyLib} (url id : string) : Prop :=
  get_youtube_video_id url = Ok (Some id) ∧ id ≠ "".

Definition youtube_hosts : list string := ["www.youtube.com"; "youtube.com"].

Definition web_schemes : list string := ["http"; "https"].

(** Characters that URL parsing treats specially somewhere in one of the
    four shapes: the three that [urlsplit] deletes, the fragment, query,
    path and parameter delimiters, and the three that query decoding
    rewrites. *)
Definition reserved : string :=
  String TAB (String LF (String CR "#?/;&+%")).

(** A non-empty identifier free of reserved characters. *)
Definition plain_id (id : string) : bool :=
  Py.truthy id
  && forallb (λ c, negb (Py.contains c reserved)) (list_ascii_of_string id).

(** Empty, or beginning with a slash. *)
Definition rooted (s : string) : Prop := s = "" ∨ ∃ r, s = String "/" r.

(** Empty, or beginning with a character of the class [P]. *)
Definition starts_in (P : ascii → bool) (s : string) : Prop :=
  s = "" ∨ ∃ c r, s = String c r ∧ P c = true.

(** Cutting [s] at the first [c], as [urlsplit] does for the fragment
    and the query: what is before it, and what is after. *)
Definition cut_at (c : ascii) (s : string) : string * string :=
  if Py.contains c s
  then let '(a, _, b) := Py.partition c s in (a, b)
  else (s, "").

(** One piece of a query string as a parameter: [name=value] with a
    value that is not empty, both sides decoded. *)
Definition query_parameter `{PyLib} (piece : string)
    : option (string * string) :=
  match Py.partition "=" piece with
  | (name, String _ _, String c value) =>
      Some (unquote (Py.replace "+" " " name),
            unquote (Py.replace "+" " " (String c value)))
  | _ => None
  end.

(** The parameters of a query string, in order: its pieces between [&]
    that are parameters. *)
Definition query_parameters `{PyLib} (qs : string)
    : list (string * string) :=
  omap query_parameter (Py.split "&" qs).

(** The value of the first pair named [key], if any. *)
Fixpoint first_value (key : string) (pairs : list (string * string))
    : option string :=
  match pairs with
  | [] => None
  | (k, v) :: rest => if bool_decide (k = key) then Some v
                      else first_value key rest
  end.

(** The values of the pairs named [key], in order. *)
Definition values_of (key : string) (pairs : list (string * string))
    : list string :=
  (filter (λ kv, kv.1 = key) pairs).*2.

(** The loop body of [parse_qs]. *)
Definition parse_qs_step (parsed_result : gmap string (list string))
    (pair : string * string) : gmap string (list string) :=
  let '(name, value) := pair in
  match parsed_result !! name with
  | Some l => <[name := l ++ [value]]> parsed_result
  | None => <[name := [value]]> parsed_result
  end.

(** The texts in order, each one after the first preceded by one space. *)
Definition spaced (texts : list string) : string :=
  match texts with
  | [] => ""
  | t :: rest => t +:+ Py.join "" ((λ t', " " +:+ t') <$> rest)
  end.

(** The number that a string of decimal digits denotes, read after the
    digits that gave [v]. *)
Fixpoint decimal_from (v : Z) (s : string) : Z :=
  match s with
  | "" => v
  | String c s' => decimal_from (10 * v + (Z.of_nat (nat_of_ascii c) - 48)) s'
  end.

Definition decimal_value (s : string) : Z := decimal_from 0 s.

(** Two decimal digits of a number below 100. *)
Definition two_digits (s : Z) : string :=
  String (Fmt.digit_char (s / 10)) (String (Fmt.digit_char (s mod 10)) "").

(** ["<minutes>:<SS> - <text>"] for a caption line. *)
Definition entry (line : CaptionLine) : string :=
  let whole := Fmt.int_of (start line) in
  Fmt.str_int (whole / 60) +:+ ":" +:+ two_digits (whole mod 60)
    +:+ " - " +:+ text line.

(** The ten fields of the metadata shape. *)
Definition metadata_fields : list string :=
  ["title"; "author_name"; "author_url"; "type"; "height"; "width";
   "version"; "provider_name"; "provider_url"; "thumbnail_url"].

(** The oEmbed address requested for a video identifier. *)
Definition oembed_request (video_id : string) : string :=
  "https://www.youtube.com/oembed?format=json&url="
    +:+ quote_plus ("https://www.youtube.com/watch?v=" +:+ video_id).

End Spec.

(** ** Concrete collaborators and inputs *)

Module Scenario.

Definition watch_url : string := "https://www.youtube.com/watch?v=dQw4w9WgXcQ".

Definition hello_world : list CaptionLine :=
  [ {| text := "Hello"; start := 0; duration := 2 |};
    {| text := "world"; start := 62; duration := 2 |} ].

(** Both collaborators answer. *)
Definition answering : Collaborators :=
  {| transcript_source := λ _ _, inr hello_world;
     oembed_provider := λ _,
       inr (JObject {[ "title" := JString "Never Gonna Give You Up";
                       "height" := JInt 113 ]}) |}.

(** Both collaborators fail. *)
Definition failing : Collaborators :=
  {| transcript_source := λ _ _,
       inl (Failure "TranscriptsDisabled"
                    "Subtitles are disabled for this video");
     oembed_provider := λ _,
       inl (Failure "HTTPError" "HTTP Error 404: Not Found") |}.

Definition watch_parsed : UrlLib.ParseResult :=
  {| UrlLib.scheme := "https"; UrlLib.netloc := "www.youtube.com";
     UrlLib.path := "/watch"; UrlLib.params := "";
     UrlLib.query := "v=a&v=b"; UrlLib.fragment := "" |}.

Definition short_parsed : UrlLib.ParseResult :=
  {| UrlLib.scheme := "https"; UrlLib.netloc := "youtu.be";
     UrlLib.path := "/dQw4w9WgXcQ"; UrlLib.params := "";
     UrlLib.query := "t=10"; UrlLib.fragment := "" |}.

Definition embed_parsed : UrlLib.ParseResult :=
  {| UrlLib.scheme := "https"; UrlLib.netloc := "www.youtube.com";
     UrlLib.path := "/embed/abc/def"; UrlLib.params := "";
     UrlLib.query := "x=1"; UrlLib.fragment := "" |}.

Definition with_port_parsed : UrlLib.ParseResult :=
  {| UrlLib.scheme := "https"; UrlLib.netloc := "someone@youtu.be:443";
     UrlLib.path := "/abc"; UrlLib.params := "";
     UrlLib.query := ""; UrlLib.fragment := "" |}.

Definition mixed_case_parsed : UrlLib.ParseResult :=
  {| UrlLib.scheme := "https"; UrlLib.netloc := "YouTu.BE";
     UrlLib.path := "/abc"; UrlLib.params := "";
     UrlLib.query := ""; UrlLib.fragment := "" |}.

End Scenario.

(** ** Further specification-side definitions *)

Module Shape.
Import UrlLib.




(** Every character of [s] is in the class [P]. *)
Definition all_chars (P : ascii → bool) (s : string) : bool :=
  forallb P (list_ascii_of_string s).

(** ASCII and not a square bracket. *)
Definition ascii_unbracketed (c : ascii) : bool :=
  Py.is_ascii_char c && negb (Ascii.eqb c "[") && negb (Ascii.eqb c "]").

(** A character [quote_plus] can produce. *)
Definition quoted_char (c : ascii) : bool :=
  always_safe c || Ascii.eqb c "%" || Ascii.eqb c "+".

(** The three characters [urlsplit] deletes wherever they stand. *)
Definition strip_unsafe (s : string) : string :=
  Py.remove LF (Py.remove CR (Py.remove TAB s)).



(** The exceptions a handler lets out: the two of status 400, and that of
    status 500 whose detail begins with the handler's own [prefix]. *)
Definition raises_only {A} (prefix : string) (r : Run A) : Prop :=
  ∀ e, outcome r = Raise e →
       e = HTTPException 400 "No URL provided"
       ∨ e = HTTPException 400 "Error getting video ID from URL"
       ∨ ∃ message, e = HTTPException 500 (prefix +:+ message).

End Shape.

(** ** Proof tactics *)

(** Case analysis on membership in a literal list. *)
Ltac each_of Hin :=
  repeat (apply elem_of_cons in Hin as [-> | Hin]);
  [..|by apply elem_of_nil in Hin].

(** Membership, or its negation, between closed terms. *)
Ltac by_evaluation := apply (bool_decide_unpack _); vm_compute; exact I.

Ltac unfold_run :=
  unfold mbind, run_bind, mret, run_ret, try_except, raise, lift; simpl.

(** ** Facts about the string primitives *)

Section StringFacts.

Lemma append_empty_r (s : string) : s +:+ "" = s.
Proof.
  induction s as [|c s IH]; [done|].
  change (String c (s +:+ "") = String c s). by rewrite IH.
Qed.

Lemma append_assoc (a b c : string) : (a +:+ b) +:+ c = a +:+ b +:+ c.
Proof.
  induction a as [|x a IH]; [done|].
  change (String x ((a +:+ b) +:+ c) = String x (a +:+ b +:+ c)).
  by rewrite IH.
Qed.

Lemma contains_append c a b :
  Py.contains c (a +:+ b) = Py.contains c a || Py.contains c b.
Proof.
  induction a as [|x a IH]; [done|].
  change (Py.contains c (String x (a +:+ b))
          = Py.contains c (String x a) || Py.contains c b).
  simpl. by rewrite IH, orb_assoc.
Qed.

Lemma join_empty_cons (x : string) (l : list string) :
  Py.join "" (x :: l) = x +:+ Py.join "" l.
Proof. destruct l; simpl; [by rewrite append_empty_r | done]. Qed.

Lemma join_spaced (texts : list string) :
  Py.join " " texts = Spec.spaced texts.
Proof.
  destruct texts as [|t rest]; [done|]. unfold Spec.spaced.
  revert t. induction rest as [|t' rest IH]; intros t.
  - simpl. by rewrite append_empty_r.
  - change (Py.join " " (t :: t' :: rest))
      with (t +:+ " " +:+ Py.join " " (t' :: rest)).
    rewrite IH, fmap_cons, join_empty_cons, append_assoc. reflexivity.
Qed.

Lemma foldl_snoc {A B} (f : A → B) (l : list A) (acc : list B) :
  foldl (λ acc x, acc ++ [f x]) acc l = acc ++ (f <$> l).
Proof.
  revert acc. induction l as [|x l IH]; intros acc; simpl.
  - by rewrite app_nil_r.
  - rewrite IH, <- app_assoc. reflexivity.
Qed.

Lemma remove_absent c s : Py.contains c s = false → Py.remove c s = s.
Proof.
  induction s as [|x s IH]; simpl; [done|].
  destruct (Ascii.eqb x c); simpl; [done|]. intros Hs. by rewrite IH.
Qed.

Lemma partition_absent c s :
  Py.contains c s = false → Py.partition c s = (s, "", "").
Proof.
  induction s as [|x s IH]; simpl; [done|].
  destruct (Ascii.eqb x c); simpl; [done|]. intros Hs. by rewrite IH.
Qed.

Lemma split_absent c s : Py.contains c s = false → Py.split c s = [s].
Proof.
  induction s as [|x s IH]; simpl; [done|].
  destruct (Ascii.eqb x c); simpl; [done|]. intros Hs. by rewrite IH.
Qed.

Lemma replace_absent c d s :
  Py.contains c s = false → Py.replace c d s = s.
Proof.
  unfold Py.replace. induction s as [|x s IH]; simpl; [done|].
  destruct (Ascii.eqb x c); simpl; [done|]. intros Hs. by rewrite IH.
Qed.

Lemma split_nonempty c s : Py.split c s ≠ [].
Proof.
  destruct s as [|x s]; simpl; [done|].
  destruct (Ascii.eqb x c); [done|]. by destruct (Py.split c s).
Qed.

Lemma startswith_append p s :
  Py.startswith p s = true → ∃ r, s = p +:+ r.
Proof.
  revert s. induction p as [|a p IH]; intros s; simpl.
  - intros _. by exists s.
  - destruct s as [|b s]; [done|].
    intros [Hab Hp]%andb_prop. apply Ascii.eqb_eq in Hab as ->.
    destruct (IH _ Hp) as [r ->]. by exists r.
Qed.

End StringFacts.

(** ** Facts about decimal numerals *)

Section Decimal.
Import Spec.

Lemma digit_char_value (d : Z) :
  (0 ≤ d < 10)%Z → (Z.of_nat (nat_of_ascii (Fmt.digit_char d)) - 48)%Z = d.
Proof.
  intros Hd. unfold Fmt.digit_char.
  rewrite nat_ascii_embedding by lia. lia.
Qed.

Lemma digits_value fuel n acc :
  (0 < fuel)%nat → (0 ≤ n < 10 ^ Z.of_nat fuel)%Z →
  decimal_from 0 (Fmt.digits fuel n acc) = decimal_from n acc.
Proof.
  revert n acc. induction fuel as [|fuel IH]; intros n acc Hfuel Hn; [lia|].
  simpl Fmt.digits. pose proof (Z.mod_pos_bound n 10 ltac:(lia)) as Hmod.
  pose proof (Z.div_mod n 10 ltac:(lia)) as Hdiv.
  destruct (Z.ltb_spec n 10) as [Hlt | Hge].
  - simpl. rewrite digit_char_value by done.
    rewrite Z.mod_small by lia. f_equal. 
  - rewrite Nat2Z.inj_succ, Z.pow_succ_r in Hn by lia.
    destruct fuel as [|fuel']; [simpl in Hn; lia|].
    rewrite IH; [|lia|].
    + simpl. rewrite digit_char_value by done. f_equal. lia.
    + split; [apply Z.div_pos; lia|]. apply Z.div_lt_upper_bound; lia.
Qed.

Lemma log2_fuel (n : Z) : (0 ≤ n)%Z → (n < 10 ^ Z.of_nat (S (Z.to_nat (Z.log2 n))))%Z.
Proof.
  intros Hn. rewrite Nat2Z.inj_succ, Z2Nat.id by apply Z.log2_nonneg.
  destruct (Z.eq_dec n 0%Z) as [-> | Hne]; [done|].
  pose proof (Z.log2_spec n ltac:(lia)) as [_ Hlt].
  eapply Z.lt_le_trans; [exact Hlt|].
  apply Z.pow_le_mono_l. lia.
Qed.

Lemma str_nat_value (n : Z) : (0 ≤ n)%Z → decimal_value (Fmt.str_nat n) = n.
Proof.
  intros Hn. unfold decimal_value, Fmt.str_nat.
  rewrite digits_value; [done | lia |]. split; [done | by apply log2_fuel].
Qed.

Lemma digits_leading fuel n acc :
  (0 < fuel)%nat → (1 ≤ n < 10 ^ Z.of_nat fuel)%Z →
  ∃ c r, Fmt.digits fuel n acc = String c r ∧ c ≠ "0"%char.
Proof.
  revert n acc. induction fuel as [|fuel IH]; intros n acc Hfuel Hn; [lia|].
  simpl Fmt.digits.
  destruct (Z.ltb_spec n 10) as [Hlt | Hge].
  - eexists _, _. split; [done|]. rewrite Z.mod_small by lia.
    intros Hc. apply (f_equal (λ c, Z.of_nat (nat_of_ascii c) - 48)%Z) in Hc.
    rewrite digit_char_value in Hc by lia.
    change (n = 0%Z) in Hc. lia.
  - rewrite Nat2Z.inj_succ, Z.pow_succ_r in Hn by lia.
    destruct fuel as [|fuel']; [simpl in Hn; lia|].
    apply IH; [lia|]. split.
    + apply Z.div_le_lower_bound; lia.
    + apply Z.div_lt_upper_bound; lia.
Qed.

Lemma str_nat_leading (n : Z) :
  (1 ≤ n)%Z → ∃ c r, Fmt.str_nat n = String c r ∧ c ≠ "0"%char.
Proof.
  intros Hn. apply digits_leading; [lia|]. split; [done | apply log2_fuel; lia].
Qed.
(** [str] of a non-negative [int] is its plain decimal numeral. *)
Lemma str_int_decimal (m : Z) :
  (0 ≤ m)%Z →
  decimal_value (Fmt.str_int m) = m
  ∧ ((1 ≤ m)%Z → ∃ c r, Fmt.str_int m = String c r ∧ c ≠ "0"%char).
Proof.
  intros Hm. unfold Fmt.str_int.
  destruct (Z.ltb_spec m 0) as [Hlt | _]; [lia|].
  split; [by apply str_nat_value | apply str_nat_leading].
Qed.

End Decimal.

(** ** Facts about [urlparse] *)

Section Parsing.
Import UrlLib YouTubeTools Spec.
Context `{PyLib}.

Lemma break_rest stop s a b : Py.break stop s = (a, b) → starts_in stop b.
Proof.
  revert a b. induction s as [|x s IH]; intros a b; simpl.
  - intros [= <- <-]. by left.
  - destruct (stop x) eqn:Hx.
    + intros [= <- <-]. right. eauto.
    + destruct (Py.break stop s) as [a' b'] eqn:Hb. intros [= <- <-]. eauto.
Qed.

Lemma partition_append c s a sep b :
  Py.partition c s = (a, sep, b) → s = a +:+ sep +:+ b.
Proof.
  revert a sep b. induction s as [|x s IH]; intros a sep b; simpl.
  - by intros [= <- <- <-].
  - destruct (Ascii.eqb_spec x c) as [-> | Hne].
    + by intros [= <- <- <-].
    + destruct (Py.partition c s) as [[a' sep'] b'] eqn:Hp.
      intros [= <- <- <-].
      change (String x s = String x (a' +:+ sep' +:+ b')).
      f_equal. by apply IH.
Qed.

Lemma partition_before_absent c s a sep b :
  Py.partition c s = (a, sep, b) → Py.contains c a = false.
Proof.
  revert a sep b. induction s as [|x s IH]; intros a sep b; simpl.
  - by intros [= <- <- <-].
  - destruct (Ascii.eqb x c) eqn:Hx.
    + by intros [= <- <- <-].
    + destruct (Py.partition c s) as [[a' sep'] b'] eqn:Hp.
      intros [= <- <- <-]. simpl. rewrite Hx. by eapply IH.
Qed.

Lemma partition_head c s a sep b :
  Py.partition c s = (a, sep, b) →
  a = "" ∨ ∃ x r r', s = String x r ∧ a = String x r' ∧ Ascii.eqb x c = false.
Proof.
  destruct s as [|x s]; simpl.
  - intros [= <- <- <-]. by left.
  - destruct (Ascii.eqb x c) eqn:Hx.
    + intros [= <- <- <-]. by left.
    + destruct (Py.partition c s) as [[a' sep'] b'] eqn:Hp.
      intros [= <- <- <-]. right. eauto 10.
Qed.

Lemma rpartition_spec c s a sep b :
  Py.rpartition c s = (a, sep, b) →
  (sep = "" ∧ a = "" ∧ b = s) ∨ (sep = String c "" ∧ s = a +:+ sep +:+ b).
Proof.
  revert a sep b. induction s as [|x s IH]; intros a sep b; simpl.
  - intros [= <- <- <-]. by left.
  - destruct (Py.rpartition c s) as [[a' sep'] b'] eqn:Hr.
    destruct (IH _ _ _ eq_refl) as [(-> & -> & ->) | [-> Hs]].
    + destruct (Ascii.eqb x c) eqn:Hx; intros [= <- <- <-].
      * apply Ascii.eqb_eq in Hx as ->. by right.
      * by left.
    + intros [= <- <- <-]. right. split; [done|].
      change (String x s = String x (a' +:+ String c "" +:+ b')).
      by rewrite <- Hs.
Qed.

(** Cutting a string at the first [c] keeps its first character unless
    that character is [c]. *)
Lemma cut_starts_in c P s u t :
  cut_at c s = (u, t) →
  starts_in P s →
  starts_in (λ x, P x && negb (Ascii.eqb x c)) u.
Proof.
  unfold cut_at. intros Hcut Hs. destruct (Py.contains c s) eqn:Hc.
  - destruct (Py.partition c s) as [[a sep] b] eqn:Hp.
    injection Hcut as <- <-.
    destruct (partition_head _ _ _ _ _ Hp) as [-> | (x & r & r' & -> & -> & Hx)];
      [by left|].
    destruct Hs as [Hs | (x' & r'' & [= <- <-] & HP)]; [done|].
    right. exists x, r'. by rewrite HP, Hx.
  - injection Hcut as <- <-.
    destruct Hs as [-> | (x & r & -> & HP)]; [by left|].
    right. exists x, r. simpl in Hc. apply orb_false_elim in Hc as [Hx _].
    by rewrite HP, Hx.
Qed.

(** What is before the cut has no [c], and no character that the whole
    did not have. *)
Lemma cut_absent c s u t :
  cut_at c s = (u, t) →
  Py.contains c u = false
  ∧ ∀ d, Py.contains d s = false → Py.contains d u = false.
Proof.
  unfold cut_at. intros Hcut. destruct (Py.contains c s) eqn:Hc.
  - destruct (Py.partition c s) as [[a sep] b] eqn:Hp.
    injection Hcut as <- <-. split; [by eapply partition_before_absent|].
    intros d Hd. rewrite (partition_append _ _ _ _ _ Hp) in Hd.
    rewrite contains_append in Hd. by apply orb_false_elim in Hd as [? _].
  - by injection Hcut as <- <-.
Qed.

Lemma only_slash_left (x : ascii) :
  Py.contains x "/?#" && negb (Ascii.eqb x "#") && negb (Ascii.eqb x "?")
  = true →
  x = "/"%char.
Proof.
  destruct x as [[] [] [] [] [] [] [] []]; vm_compute; intros Hx;
    first [reflexivity | discriminate].
Qed.

(** The last steps of [urlsplit]: the text after the netloc is cut at
    [#], then at [?]; with a netloc, that text is empty or begins with
    one of [/ ? #]. *)
Lemma urlsplit_inv url sch nl u q f :
  urlsplit url = Ok (sch, nl, u, q, f) →
  ∃ rest u1,
    (nl = "" ∨ starts_in (λ c, Py.contains c "/?#") rest)
    ∧ cut_at "#" rest = (u1, f) ∧ cut_at "?" u1 = (u, q).
Proof.
  unfold urlsplit. intros Hs.
  match type of Hs with
  | context [Py.partition ":" ?u0] => set (url0 := u0) in Hs
  end.
  match type of Hs with
  | (let '(_, _) := ?E in _) = _ => destruct E as [sch' url1]
  end.
  assert (Htail : ∀ nl0 rest,
    (let '(url, fragment) := cut_at "#" rest in
     let '(url0, query) := cut_at "?" url in
     _ ← _checknetloc nl0; Ok (sch', nl0, url0, query, fragment))
    = Ok (sch, nl, u, q, f) →
    nl0 = nl ∧ ∃ u1, cut_at "#" rest = (u1, f) ∧ cut_at "?" u1 = (u, q)).
  { intros nl0 rest Ht.
    destruct (cut_at "#" rest) as [u1 f1].
    destruct (cut_at "?" u1) as [u2 q2] eqn:Hq.
    destruct (_checknetloc nl0); [|discriminate].
    simpl in Ht. injection Ht as <- <- <- <- <-. split; [done|].
    exists u1. by rewrite Hq. }
  destruct (Py.startswith "//" url1).
  - destruct (_splitnetloc url1) as [nl0 rest] eqn:Hsn.
    match type of Hs with
    | context [if ?c then Raise _ else _] => destruct c
    end; [discriminate|].
    match type of Hs with
    | context [mbind _ (if ?c then ?a else ?b)] =>
        destruct (if c then a else b) as [[]|e]
    end; [|discriminate].
    apply break_rest in Hsn.
    destruct (Htail nl0 rest Hs) as [<- (u1 & Hf & Hq)].
    exists rest, u1. auto.
  - destruct (Htail "" url1 Hs) as [<- (u1 & Hf & Hq)].
    exists url1, u1. auto.
Qed.

Lemma urlsplit_rooted url sch nl u q f :
  urlsplit url = Ok (sch, nl, u, q, f) → nl ≠ "" → rooted u.
Proof.
  intros (rest & u1 & [Hnl | Hrest] & Hf & Hq)%urlsplit_inv Hne; [done|].
  apply (cut_starts_in _ _ _ _ _ Hf) in Hrest.
  apply (cut_starts_in _ _ _ _ _ Hq) in Hrest.
  destruct Hrest as [-> | (x & r & -> & Hx)]; [by left|].
  right. exists r. f_equal. by apply only_slash_left.
Qed.

Lemma urlsplit_path_clean url sch nl u q f :
  urlsplit url = Ok (sch, nl, u, q, f) →
  Py.contains "?" u = false ∧ Py.contains "#" u = false.
Proof.
  intros (rest & u1 & _ & Hf & Hq)%urlsplit_inv.
  destruct (cut_absent _ _ _ _ Hf) as [Hhash _].
  destruct (cut_absent _ _ _ _ Hq) as [Hquestion Hkeep]. auto.
Qed.

End Parsing.

Section ParsedPath.
Import UrlLib YouTubeTools Spec.
Context `{PyLib}.

Lemma splitparams_rooted u : rooted u → rooted (_splitparams u).1.
Proof.
  intros Hu. unfold _splitparams. destruct (Py.contains "/" u) eqn:Hc.
  - destruct (Py.rpartition "/" u) as [[head slash] last] eqn:Hr.
    destruct (Py.contains ";" last); [|done].
    destruct (Py.partition ";" last) as [[a sep] b] eqn:Hp. simpl.
    destruct (rpartition_spec _ _ _ _ _ Hr) as [(-> & -> & ->) | [-> Hsplit]].
    + destruct (partition_head _ _ _ _ _ Hp)
        as [-> | (x & r & r' & -> & -> & _)]; [by left|].
      destruct Hu as [Hu | [r'' [= -> ->]]]; [done|]. right. eauto.
    + destruct head as [|x head]; [right; by eexists|].
      destruct Hu as [-> | [r Hu]]; [discriminate Hc|]. rewrite Hu in Hsplit.
      change (String "/" r = String x (head +:+ "/" +:+ last)) in Hsplit.
      injection Hsplit as <- _. right. eexists. reflexivity.
  - destruct (Py.partition ";" u) as [[a sep] b] eqn:Hp. simpl.
    destruct (partition_head _ _ _ _ _ Hp)
      as [-> | (x & r & r' & -> & -> & _)]; [by left|].
    destruct Hu as [Hu | [r'' [= -> ->]]]; [done|]. right. eauto.
Qed.

Lemma splitparams_absent d u :
  Py.contains d u = false → Py.contains d (_splitparams u).1 = false.
Proof.
  intros Hd. unfold _splitparams. destruct (Py.contains "/" u).
  - destruct (Py.rpartition "/" u) as [[head slash] last] eqn:Hr.
    destruct (Py.contains ";" last); [|done].
    destruct (Py.partition ";" last) as [[a sep] b] eqn:Hp. simpl.
    apply partition_append in Hp.
    destruct (rpartition_spec _ _ _ _ _ Hr) as [(-> & -> & ->) | [-> Hsplit]].
    + rewrite Hp, contains_append in Hd.
      by apply orb_false_elim in Hd as [? _].
    + rewrite Hsplit, Hp, !contains_append in Hd.
      apply orb_false_elim in Hd as [Hhead Hd].
      apply orb_false_elim in Hd as [Hslash Hd].
      apply orb_false_elim in Hd as [Ha _].
      by rewrite !contains_append, Hhead, Hslash, Ha.
  - destruct (Py.partition ";" u) as [[a sep] b] eqn:Hp. simpl.
    apply partition_append in Hp. rewrite Hp, contains_append in Hd.
    by apply orb_false_elim in Hd as [? _].
Qed.

Lemma hostname_netloc p host : hostname p = Some host → netloc p ≠ "".
Proof. intros Hh Hn. unfold hostname in Hh. rewrite Hn in Hh. done. Qed.

(** [urlparse] takes its path from [urlsplit], less the parameters of
    the last segment for some schemes. *)
Lemma urlparse_inv url p :
  urlparse url = Ok p →
  ∃ sch u q f,
    urlsplit url = Ok (sch, netloc p, u, q, f)
    ∧ (path p = u ∨ path p = (_splitparams u).1).
Proof.
  unfold urlparse. intros Hp.
  destruct (urlsplit url) as [[[[[sch nl] u] q] f]|e]; [|discriminate].
  simpl in Hp.
  match type of Hp with
  | (let '(_, _) := ?E in _) = _ => destruct E as [u' ps] eqn:Hparams
  end.
  injection Hp as <-. simpl. exists sch, u, q, f. split; [done|].
  destruct (bool_decide (sch ∈ uses_params) && Py.contains ";" u).
  - right. by rewrite Hparams.
  - left. by injection Hparams as <- <-.
Qed.

(** With a hostname, the parsed path is empty or begins with a slash. *)
Lemma urlparse_rooted url p host :
  urlparse url = Ok p → hostname p = Some host → rooted (path p).
Proof.
  intros (sch & u & q & f & Hs & Hpath)%urlparse_inv Hh%hostname_netloc.
  apply urlsplit_rooted in Hs; [|done].
  destruct Hpath as [-> | ->]; [done | by apply splitparams_rooted].
Qed.

(** The parsed path holds no query string and no fragment. *)
Lemma urlparse_path_clean url p :
  urlparse url = Ok p →
  Py.contains "?" (path p) = false ∧ Py.contains "#" (path p) = false.
Proof.
  intros (sch & u & q & f & Hs & Hpath)%urlparse_inv.
  apply urlsplit_path_clean in Hs as [Hq Hf].
  destruct Hpath as [-> | ->]; [done|]. split; by apply splitparams_absent.
Qed.

End ParsedPath.

(** ** Facts about [parse_qs] *)

Section QueryParameters.
Import UrlLib YouTubeTools Spec.
Context `{PyLib}.

Lemma foldl_parse_qs_step_lookup key pairs (d : gmap string (list string)) :
  foldl parse_qs_step d pairs !! key
  = match d !! key, values_of key pairs with
    | Some l, vs => Some (l ++ vs)
    | None, [] => None
    | None, v :: vs => Some (v :: vs)
    end.
Proof.
  revert d. induction pairs as [|[name value] pairs IH]; intros d.
  - simpl. destruct (d !! key); [by rewrite app_nil_r | done].
  - simpl. rewrite IH. unfold values_of. rewrite filter_cons. simpl.
    destruct (decide (name = key)) as [-> | Hne].
    + destruct (d !! key) as [l|] eqn:Hd; rewrite lookup_insert_eq; simpl.
      * by rewrite <- app_assoc.
      * done.
    + destruct (d !! name) as [l|] eqn:Hd;
        by rewrite lookup_insert_ne.
Qed.

(** The dictionary of [parse_qs] holds, under a name, the values of the
    pairs that carry it, in order; names without a pair are missing. *)
Lemma parse_qs_lookup key qs :
  parse_qs qs !! key
  = match values_of key (parse_qsl qs) with
    | [] => None
    | v :: vs => Some (v :: vs)
    end.
Proof.
  change (parse_qs qs) with (foldl parse_qs_step ∅ (parse_qsl qs)).
  by rewrite foldl_parse_qs_step_lookup, lookup_empty.
Qed.

Lemma first_value_head key pairs :
  first_value key pairs = head (values_of key pairs).
Proof.
  induction pairs as [|[k v] pairs IH]; [done|].
  unfold values_of in *. rewrite filter_cons. simpl.
  destruct (decide (k = key)) as [-> | Hne].
  - by rewrite bool_decide_eq_true_2.
  - by rewrite bool_decide_eq_false_2.
Qed.

Lemma first_value_None key pairs :
  first_value key pairs = None ↔ key ∉ pairs.*1.
Proof.
  induction pairs as [|[k v] pairs IH]; simpl.
  - split; [intros _; apply not_elem_of_nil | done].
  - rewrite not_elem_of_cons. case_bool_decide as Hk.
    + subst. split; [done | by intros [? _]].
    + rewrite IH. split; [by intros ?; split | by intros [_ ?]].
Qed.

(** The pairs [parse_qsl] reads are the parameters of the query string. *)
Lemma parse_qsl_parameters qs : parse_qsl qs = query_parameters qs.
Proof.
  unfold parse_qsl, query_parameters.
  assert (Hfold : ∀ pieces acc,
    foldl (λ r name_value,
             if negb (Py.truthy name_value) then r
             else match Py.split_once "=" name_value with
                  | [n; v] =>
                      if Py.truthy v
                      then r ++ [(unquote (Py.replace "+" " " n),
                                  unquote (Py.replace "+" " " v))]
                      else r
                  | _ => r
                  end) acc pieces
    = acc ++ omap query_parameter pieces).
  { induction pieces as [|piece pieces IH]; intros acc; simpl.
    - by rewrite app_nil_r.
    - rewrite IH. unfold query_parameter, Py.split_once.
      destruct piece as [|c piece]; [done|]. simpl Py.truthy. simpl negb.
      cbv iota.
      destruct (Py.partition "=" (String c piece)) as [[n sep] v].
      destruct sep as [|? ?]; [done|]. destruct v as [|? ?]; [done|].
      simpl. by rewrite <- app_assoc. }
  destruct qs as [|c qs]; [done|]. simpl Py.truthy. cbv iota.
  apply Hfold.
Qed.

End QueryParameters.

(** ** Parsing the four URL shapes *)

Section PlainIds.
Import UrlLib Spec.

Lemma unquote_absent `{PyLib} s : Py.contains "%" s = false → unquote s = s.
Proof. intros Hs. unfold unquote. by rewrite Hs. Qed.

Lemma plain_absent id c :
  plain_id id = true → Py.contains c reserved = true →
  Py.contains c id = false.
Proof.
  unfold plain_id. intros [_ Hall]%andb_prop Hc.
  induction id as [|x id IH]; [done|]. simpl in *.
  apply andb_prop in Hall as [Hx Hall]. rewrite (IH Hall), orb_false_r.
  destruct (Ascii.eqb_spec x c) as [-> | _]; [|done].
  by rewrite Hc in Hx.
Qed.

Lemma plain_truthy id : plain_id id = true → Py.truthy id = true.
Proof. unfold plain_id. by intros [? _]%andb_prop. Qed.

End PlainIds.

Ltac absent_facts id Hplain :=
  pose proof (plain_absent id UrlLib.TAB Hplain eq_refl) as Htab;
  pose proof (plain_absent id UrlLib.LF Hplain eq_refl) as Hlf;
  pose proof (plain_absent id UrlLib.CR Hplain eq_refl) as Hcr;
  pose proof (plain_absent id "#" Hplain eq_refl) as Hhash;
  pose proof (plain_absent id "?" Hplain eq_refl) as Hquestion;
  pose proof (plain_absent id "/" Hplain eq_refl) as Hslash;
  pose proof (plain_absent id ";" Hplain eq_refl) as Hsemi;
  pose proof (plain_absent id "&" Hplain eq_refl) as Hamp;
  pose proof (plain_absent id "+" Hplain eq_refl) as Hplus;
  pose proof (plain_absent id "%" Hplain eq_refl) as Hpercent;
  pose proof (plain_truthy id Hplain) as Htruthy.

Ltac absent_step :=
  match goal with
  | Hc : Py.contains ?c ?s = false |- _ =>
      first [ rewrite (remove_absent c s Hc)
            | rewrite (partition_absent c s Hc)
            | rewrite (split_absent c s Hc)
            | rewrite (replace_absent c _ s Hc)
            | rewrite (unquote_absent s Hc)
            | rewrite Hc ]
  | Ht : Py.truthy ?s = true |- _ => rewrite Ht
  end.

(** Evaluate through a literal prefix, then use what is known of the
    identifier that follows it. *)
Ltac through_id := repeat (progress (simpl; repeat absent_step)).

Section FourShapes.
Import UrlLib YouTubeTools Spec.
Context `{PyLib}.

Lemma urlparse_youtu_be sch id :
  sch ∈ web_schemes → plain_id id = true →
  urlparse (sch +:+ "://youtu.be/" +:+ id)
  = Ok {| scheme := sch; netloc := "youtu.be"; path := String "/" id;
          params := ""; query := ""; fragment := "" |}.
Proof.
  intros Hsch Hplain. absent_facts id Hplain. each_of Hsch;
    unfold urlparse, urlsplit; cbv [String.append]; through_id; reflexivity.
Qed.

Lemma urlparse_watch sch host id :
  sch ∈ web_schemes → host ∈ youtube_hosts → plain_id id = true →
  urlparse (sch +:+ "://" +:+ host +:+ "/watch?v=" +:+ id)
  = Ok {| scheme := sch; netloc := host; path := "/watch";
          params := ""; query := "v=" +:+ id; fragment := "" |}.
Proof.
  intros Hsch Hhost Hplain. absent_facts id Hplain.
  each_of Hsch; each_of Hhost;
    unfold urlparse, urlsplit; cbv [String.append]; through_id; reflexivity.
Qed.

Lemma urlparse_segment sch host dir id :
  sch ∈ web_schemes → host ∈ youtube_hosts → dir ∈ ["embed"; "v"] →
  plain_id id = true →
  urlparse (sch +:+ "://" +:+ host +:+ "/" +:+ dir +:+ "/" +:+ id)
  = Ok {| scheme := sch; netloc := host; path := "/" +:+ dir +:+ "/" +:+ id;
          params := ""; query := ""; fragment := "" |}.
Proof.
  intros Hsch Hhost Hdir Hplain. absent_facts id Hplain.
  each_of Hsch; each_of Hhost; each_of Hdir;
    unfold urlparse, urlsplit; cbv [String.append]; through_id; reflexivity.
Qed.

Lemma parse_qsl_v id :
  plain_id id = true → parse_qsl ("v=" +:+ id) = [("v", id)].
Proof.
  intros Hplain. absent_facts id Hplain.
  unfold parse_qsl, Py.split_once. cbv [String.append]. through_id.
  reflexivity.
Qed.

Lemma split_segment dir id :
  dir ∈ ["embed"; "v"] → plain_id id = true →
  Py.split "/" ("/" +:+ dir +:+ "/" +:+ id) = [""; dir; id].
Proof.
  intros Hdir Hplain. absent_facts id Hplain.
  each_of Hdir; cbv [String.append]; through_id; reflexivity.
Qed.

(** A path under [/embed/] or [/v/] has a third slash-delimited token. *)
Lemma split_third_token prefix pth :
  prefix ∈ ["/embed/"; "/v/"] → Py.startswith prefix pth = true →
  ∃ segment, Py.split "/" pth !! 2%nat = Some segment.
Proof.
  intros Hprefix [r ->]%startswith_append. pose proof (split_nonempty "/" r).
  each_of Hprefix; cbv [String.append]; simpl;
    destruct (Py.split "/" r) as [|h t]; try done; by exists h.
Qed.

End FourShapes.

(** ** Video-id extraction *)

Section Extraction.
Import UrlLib YouTubeTools Spec.
Context `{PyLib}.

Lemma video_id_youtu_be url p :
  urlparse url = Ok p → hostname p = Some "youtu.be" →
  get_youtube_video_id url = Ok (Some (Py.drop 1 (path p))).
Proof.
  intros Hp Hh. unfold get_youtube_video_id. rewrite Hp.
  unfold mbind, exc_bind. cbv beta iota zeta.
  by rewrite bool_decide_eq_true_2.
Qed.

Lemma youtube_host_cases (h : option string) :
  h ∈ [Some "youtube.com"; Some "www.youtube.com"] →
  h ≠ Some "youtu.be" ∧ h ∈ [Some "www.youtube.com"; Some "youtube.com"].
Proof. intros Hh. each_of Hh; (split; [done | by_evaluation]). Qed.

Lemma video_id_watch url p :
  urlparse url = Ok p →
  hostname p ∈ [Some "youtube.com"; Some "www.youtube.com"] →
  path p = "/watch" →
  get_youtube_video_id url = Ok (first_value "v" (parse_qsl (query p))).
Proof.
  intros Hp [Hne Hin]%youtube_host_cases Hpath.
  unfold get_youtube_video_id. rewrite Hp.
  unfold mbind, exc_bind. cbv beta iota zeta.
  rewrite (bool_decide_eq_false_2 _ Hne), (bool_decide_eq_true_2 _ Hin).
  rewrite bool_decide_eq_true_2 by done.
  rewrite parse_qs_lookup, first_value_head.
  destruct (values_of "v" (parse_qsl (query p))); reflexivity.
Qed.

Lemma video_id_segment url p :
  urlparse url = Ok p →
  hostname p ∈ [Some "youtube.com"; Some "www.youtube.com"] →
  path p ≠ "/watch" →
  Py.startswith "/embed/" (path p) || Py.startswith "/v/" (path p) = true →
  get_youtube_video_id url
  = match Py.split "/" (path p) !! 2%nat with
    | Some segment => Ok (Some segment)
    | None => Raise (IndexError "list index out of range")
    end.
Proof.
  intros Hp [Hne Hin]%youtube_host_cases Hpath Hstart.
  unfold get_youtube_video_id. rewrite Hp.
  unfold mbind, exc_bind. cbv beta iota zeta.
  rewrite (bool_decide_eq_false_2 _ Hne), (bool_decide_eq_true_2 _ Hin).
  rewrite bool_decide_eq_false_2 by done.
  destruct (Py.startswith "/embed/" (path p)); [done|].
  rewrite orb_false_l in Hstart. by rewrite Hstart.
Qed.

Lemma video_id_other_host url p :
  urlparse url = Ok p →
  hostname p ∉ [Some "youtu.be"; Some "youtube.com"; Some "www.youtube.com"] →
  get_youtube_video_id url = Ok None.
Proof.
  intros Hp Hh. unfold get_youtube_video_id. rewrite Hp.
  unfold mbind, exc_bind. cbv beta iota zeta.
  rewrite !not_elem_of_cons in Hh. destruct Hh as (H1 & H2 & H3 & _).
  rewrite !bool_decide_eq_false_2; [done | | done].
  rewrite !not_elem_of_cons. auto using not_elem_of_nil.
Qed.

Lemma video_id_other_path url p :
  urlparse url = Ok p →
  hostname p ∈ [Some "youtube.com"; Some "www.youtube.com"] →
  path p ≠ "/watch" →
  Py.startswith "/embed/" (path p) = false →
  Py.startswith "/v/" (path p) = false →
  get_youtube_video_id url = Ok None.
Proof.
  intros Hp [Hne Hin]%youtube_host_cases Hpath He Hv.
  unfold get_youtube_video_id. rewrite Hp.
  unfold mbind, exc_bind. cbv beta iota zeta.
  rewrite (bool_decide_eq_false_2 _ Hne), (bool_decide_eq_true_2 _ Hin).
  rewrite bool_decide_eq_false_2 by done. by rewrite He, Hv.
Qed.

(** Extraction raises only what [urlparse] raises: the two indexings
    never run out of range. *)
Lemma video_id_raises url e :
  get_youtube_video_id url = Raise e → urlparse url = Raise e.
Proof.
  unfold get_youtube_video_id.
  destruct (urlparse url) as [p|e'] eqn:Hp; [|by intros [= ->]].
  unfold mbind, exc_bind. cbv beta iota zeta.
  repeat case_bool_decide; try discriminate.
  - rewrite parse_qs_lookup.
    by destruct (values_of "v" (parse_qsl (query p))).
  - destruct (Py.startswith "/embed/" (path p)) eqn:He.
    { destruct (split_third_token "/embed/" (path p)) as [seg ->];
        [by_evaluation | done | discriminate]. }
    destruct (Py.startswith "/v/" (path p)) eqn:Hv; [|discriminate].
    destruct (split_third_token "/v/" (path p)) as [seg ->];
      [by_evaluation | done | discriminate].
Qed.

(** C1, amended. For a non-empty identifier free of reserved characters
    (tab, line feed, carriage return, [#], [?], [/], [;], [&], [+], [%]),
    extraction returns the identifier unchanged from each of the four
    shapes under http or https and, beside youtu.be, the hosts
    youtube.com and www.youtube.com. A parsed URL whose hostname is none
    of the three gives "not found", and so does one on youtube.com or
    www.youtube.com whose path is not /watch and starts with neither
    /embed/ nor /v/. *)
Theorem extraction_of_plain_ids id :
  plain_id id = true →
  (∀ sch host, sch ∈ web_schemes → host ∈ youtube_hosts →
     get_youtube_video_id (sch +:+ "://youtu.be/" +:+ id) = Ok (Some id)
     ∧ get_youtube_video_id (sch +:+ "://" +:+ host +:+ "/watch?v=" +:+ id)
       = Ok (Some id)
     ∧ get_youtube_video_id (sch +:+ "://" +:+ host +:+ "/embed/" +:+ id)
       = Ok (Some id)
     ∧ get_youtube_video_id (sch +:+ "://" +:+ host +:+ "/v/" +:+ id)
       = Ok (Some id))
  ∧ (∀ url p,
       urlparse url = Ok p →
       hostname p ∉ [Some "youtu.be"; Some "youtube.com"; Some "www.youtube.com"] →
       get_youtube_video_id url = Ok None)
  ∧ (∀ url p,
       urlparse url = Ok p →
       hostname p ∈ [Some "youtube.com"; Some "www.youtube.com"] →
       path p ≠ "/watch" →
       Py.startswith "/embed/" (path p) = false →
       Py.startswith "/v/" (path p) = false →
       get_youtube_video_id url = Ok None).
Proof.
  intros Hplain. split; [|split].
  - intros sch host Hsch Hhost.
    assert (Hh : ∀ p, netloc p = host →
              hostname p ∈ [Some "youtube.com"; Some "www.youtube.com"]).
    { intros p Hn. unfold hostname. rewrite Hn.
      each_of Hhost; by_evaluation. }
    repeat split.
    + rewrite (video_id_youtu_be _ _ (urlparse_youtu_be _ _ Hsch Hplain));
        reflexivity.
    + rewrite (video_id_watch _ _ (urlparse_watch _ _ _ Hsch Hhost Hplain));
        [|by apply Hh|reflexivity].
      simpl. by rewrite (parse_qsl_v _ Hplain).
    + assert (Hdir : "embed" ∈ ["embed"; "v"]) by by_evaluation.
      change (get_youtube_video_id
                (sch +:+ "://" +:+ host +:+ "/" +:+ "embed" +:+ "/" +:+ id)
              = Ok (Some id)).
      rewrite (video_id_segment _ _
                 (urlparse_segment _ _ _ _ Hsch Hhost Hdir Hplain));
        [|by apply Hh|discriminate|reflexivity].
      simpl path. by rewrite (split_segment _ _ Hdir Hplain).
    + assert (Hdir : "v" ∈ ["embed"; "v"]) by by_evaluation.
      change (get_youtube_video_id
                (sch +:+ "://" +:+ host +:+ "/" +:+ "v" +:+ "/" +:+ id)
              = Ok (Some id)).
      rewrite (video_id_segment _ _
                 (urlparse_segment _ _ _ _ Hsch Hhost Hdir Hplain));
        [|by apply Hh|discriminate|reflexivity].
      simpl path. by rewrite (split_segment _ _ Hdir Hplain).
  - apply video_id_other_host.
  - apply video_id_other_path.
Qed.

(** C6. When the hostname is youtube.com or www.youtube.com and the path
    is exactly /watch, extraction returns the value of the first
    parameter named v of the query string, and "not found" exactly when
    no parameter is named v. *)
Theorem watch_returns_first_v url p :
  urlparse url = Ok p →
  hostname p ∈ [Some "youtube.com"; Some "www.youtube.com"] →
  path p = "/watch" →
  get_youtube_video_id url
  = Ok (first_value "v" (query_parameters (query p)))
  ∧ (get_youtube_video_id url = Ok None
     ↔ "v" ∉ (query_parameters (query p)).*1).
Proof.
  intros Hp Hhost Hpath.
  rewrite (video_id_watch _ _ Hp Hhost Hpath), parse_qsl_parameters.
  split; [done|]. rewrite <- first_value_None.
  split; [by intros [= ->] | by intros ->].
Qed.

(** C7. When the hostname is youtu.be, extraction returns the parsed
    path without its leading slash: all that follows the slash, with
    nothing else removed. The path is empty or begins with that slash,
    and holds no query string. *)
Theorem youtu_be_returns_path_after_slash url p :
  urlparse url = Ok p →
  hostname p = Some "youtu.be" →
  ((path p = "" ∧ get_youtube_video_id url = Ok (Some ""))
   ∨ (∃ rest, path p = String "/" rest
              ∧ get_youtube_video_id url = Ok (Some rest)))
  ∧ Py.contains "?" (path p) = false.
Proof.
  intros Hp Hh. split; [|by apply (urlparse_path_clean url)].
  rewrite (video_id_youtu_be _ _ Hp Hh).
  destruct (urlparse_rooted _ _ _ Hp Hh) as [Hempty | [rest Hrest]].
  - left. by rewrite Hempty.
  - right. exists rest. by rewrite Hrest.
Qed.

End Extraction.

(** ** Running an operation on a resolved or an unresolved URL *)

Section Resolution.
Import UrlLib YouTubeTools Spec.
Context `{PyLib}.

Lemma get_youtube_video_id_empty : get_youtube_video_id "" = Ok None.
Proof. reflexivity. Qed.

Lemma resolves_truthy url id : resolves url id → Py.truthy url = true.
Proof.
  intros [Hid Hne]. destruct url as [|c url]; [|done].
  rewrite get_youtube_video_id_empty in Hid. discriminate.
Qed.

Lemma resolve_video_id_ok url id :
  resolves url id →
  resolve_video_id url = {| calls := []; outcome := Ok id |}.
Proof.
  intros [Hid Hne]. unfold resolve_video_id, try_except, lift, mbind, run_bind.
  simpl. rewrite Hid. destruct id as [|c id]; [done|]. reflexivity.
Qed.

Lemma resolve_video_id_fails url :
  ¬ (∃ id, resolves url id) →
  resolve_video_id url
  = {| calls := [];
       outcome := Raise (HTTPException 400 "Error getting video ID from URL") |}.
Proof.
  intros Hno. unfold resolve_video_id, try_except, lift, mbind, run_bind.
  simpl. destruct (get_youtube_video_id url) as [[[|c id]|]|e] eqn:Hid;
    try reflexivity.
  exfalso. apply Hno. exists (String c id). by split.
Qed.

Lemma unparseable_not_resolved url e :
  urlparse url = Raise e → ¬ (∃ id, resolves url id).
Proof.
  intros Hp [id [Hid _]]. unfold get_youtube_video_id in Hid.
  rewrite Hp in Hid. discriminate.
Qed.

End Resolution.

(** ** The three operations *)

Section Operations.
Import UrlLib YouTubeTools Spec.
Context `{PyLib}.
Variable W : Collaborators.

(** C4. An empty URL, a URL that [urlparse] rejects, and a URL that
    yields no usable identifier each end every one of the three
    operations with an [HTTPException] of status 400, with no outbound
    call made. *)
Theorem invalid_input_400_without_calls url languages :
  url = "" ∨ (∃ e, urlparse url = Raise e) ∨ ¬ (∃ id, resolves url id) →
  ∃ detail,
    detail ∈ ["No URL provided"; "Error getting video ID from URL"]
    ∧ get_video_data W url
      = {| calls := []; outcome := Raise (HTTPException 400 detail) |}
    ∧ get_video_captions W url languages
      = {| calls := []; outcome := Raise (HTTPException 400 detail) |}
    ∧ get_video_timestamps W url languages
      = {| calls := []; outcome := Raise (HTTPException 400 detail) |}.
Proof.
  intros [-> | Hbad].
  - exists "No URL provided". split; [by_evaluation|]. repeat split.
  - assert (Hno : ¬ (∃ id, resolves url id)).
    { destruct Hbad as [[e He] | Hno]; [|done].
      by eapply unparseable_not_resolved. }
    unfold get_video_data, get_video_captions, get_video_timestamps.
    rewrite (resolve_video_id_fails _ Hno).
    destruct (Py.truthy url).
    + exists "Error getting video ID from URL". split; [by_evaluation|].
      repeat split.
    + exists "No URL provided". split; [by_evaluation|]. repeat split.
Qed.

(** C2. On a URL that resolves to an identifier, the captions operation
    returns the caption texts in source order with one space between
    neighbours, and the literal "No captions found for video" when the
    transcript source returns no line. *)
Theorem captions_joined_or_literal url languages id captions :
  resolves url id →
  transcript_source W id
    (if truthy_languages languages then languages else None) = inr captions →
  outcome (get_video_captions W url languages)
  = Ok (match captions with
        | [] => "No captions found for video"
        | _ :: _ => spaced (text <$> captions)
        end).
Proof.
  intros Hres Hsrc. unfold get_video_captions.
  rewrite (resolves_truthy _ _ Hres), (resolve_video_id_ok _ _ Hres).
  rewrite <- join_spaced. unfold_run.
  destruct (truthy_languages languages); simpl; rewrite Hsrc;
    destruct captions; reflexivity.
Qed.

Lemma full_url_oembed_request (video_id : string) :
  "https://www.youtube.com/oembed" +:+ "?"
    +:+ urlencode [("format", "json");
                   ("url", "https://www.youtube.com/watch?v=" +:+ video_id)]
  = oembed_request video_id.
Proof. reflexivity. Qed.

(** C5. On a resolved URL, a failure of the transcript source or of the
    metadata provider ends the operation with an [HTTPException] of status
    500 whose detail is a fixed prefix followed by the failure's message;
    the failure's kind does not appear.  A decoded response that is not a
    JSON object ends the metadata operation the same way. *)
Theorem upstream_failure_500_with_message url languages id f :
  resolves url id →
  (transcript_source W id
     (if truthy_languages languages then languages else None) = inl f →
   outcome (get_video_captions W url languages)
   = Raise (HTTPException 500
              ("Error getting captions for video: " +:+ message f)))
  ∧ (transcript_source W id (Some (languages_or languages ["en"])) = inl f →
     outcome (get_video_timestamps W url languages)
     = Raise (HTTPException 500
                ("Error generating timestamps: " +:+ message f)))
  ∧ (oembed_provider W (oembed_request id) = inl f →
     outcome (get_video_data W url)
     = Raise (HTTPException 500
                ("Error getting video data: " +:+ message f)))
  ∧ (∀ v, oembed_provider W (oembed_request id) = inr v →
          (∀ m, v ≠ JObject m) →
          outcome (get_video_data W url)
          = Raise (HTTPException 500
                     ("Error getting video data: '" +:+ type_name v
                      +:+ "' object has no attribute 'get'"))).
Proof.
  intros Hres.
  unfold get_video_captions, get_video_timestamps, get_video_data.
  rewrite (resolves_truthy _ _ Hres), (resolve_video_id_ok _ _ Hres).
  repeat split.
  - intros Hsrc. unfold_run.
    destruct (truthy_languages languages); simpl; rewrite Hsrc; reflexivity.
  - intros Hsrc. unfold_run. rewrite Hsrc. reflexivity.
  - intros Hsrc. unfold_run. rewrite full_url_oembed_request, Hsrc.
    reflexivity.
  - intros v Hsrc Hv. unfold_run. rewrite full_url_oembed_request, Hsrc.
    destruct v; try reflexivity. by destruct (Hv m).
Qed.

(** C8. On a resolved URL with the language list omitted, the timestamps
    operation asks the transcript source for exactly ["en"] and the
    captions operation passes no language argument; a non-empty list is
    handed on unchanged by both. In every case that request is the only
    outbound call. *)
Theorem language_defaults url id :
  resolves url id →
  calls (get_video_timestamps W url None) = [GetTranscript id (Some ["en"])]
  ∧ calls (get_video_captions W url None) = [GetTranscript id None]
  ∧ ∀ l ls,
      calls (get_video_captions W url (Some (l :: ls)))
      = [GetTranscript id (Some (l :: ls))]
      ∧ calls (get_video_timestamps W url (Some (l :: ls)))
        = [GetTranscript id (Some (l :: ls))].
Proof.
  intros Hres.
  unfold get_video_captions, get_video_timestamps.
  rewrite (resolves_truthy _ _ Hres), (resolve_video_id_ok _ _ Hres).
  repeat split; intros; unfold_run;
    match goal with
    | |- context [transcript_source W ?a ?b] =>
        destruct (transcript_source W a b) as [?|[|??]]
    end; reflexivity.
Qed.

(** C10. On a resolved URL an empty language list runs exactly as an
    omitted one: the captions operation passes no language argument and
    the timestamps operation asks for ["en"]. *)
Theorem empty_language_list_as_omitted url id :
  resolves url id →
  get_video_captions W url (Some []) = get_video_captions W url None
  ∧ get_video_timestamps W url (Some []) = get_video_timestamps W url None
  ∧ calls (get_video_captions W url (Some [])) = [GetTranscript id None]
  ∧ calls (get_video_timestamps W url (Some []))
    = [GetTranscript id (Some ["en"])].
Proof.
  intros Hres. split; [reflexivity|]. split; [reflexivity|].
  unfold get_video_captions, get_video_timestamps.
  rewrite (resolves_truthy _ _ Hres), (resolve_video_id_ok _ _ Hres).
  split; unfold_run;
    match goal with
    | |- context [transcript_source W ?a ?b] =>
        destruct (transcript_source W a b) as [?|[|??]]
    end; reflexivity.
Qed.

(** C9. On a resolved URL, when the provider's decoded response is a JSON
    object, the metadata operation succeeds with a dictionary whose keys
    are exactly the ten field names; each holds the response's value for
    that name, and null when the response lacks it. *)
Theorem metadata_projection url id m :
  resolves url id →
  oembed_provider W (oembed_request id) = inr (JObject m) →
  ∃ clean_data,
    outcome (get_video_data W url) = Ok clean_data
    ∧ dom clean_data = list_to_set metadata_fields
    ∧ ∀ field, field ∈ metadata_fields →
               clean_data !! field = Some (default JNull (m !! field)).
Proof.
  intros Hres Hsrc. unfold get_video_data.
  rewrite (resolves_truthy _ _ Hres), (resolve_video_id_ok _ _ Hres).
  unfold_run. rewrite full_url_oembed_request, Hsrc. simpl.
  eexists. split; [reflexivity|]. split.
  - rewrite !dom_insert_L, dom_empty_L. unfold metadata_fields. simpl.
    set_solver.
  - intros field Hin. unfold metadata_fields in Hin.
    repeat (apply elem_of_cons in Hin as [-> | Hin]; [by simplify_map_eq|]).
    by apply elem_of_nil in Hin.
Qed.

Lemma format_02d_two_digits (s : Z) :
  (0 ≤ s < 60)%Z → Fmt.format_02d s = two_digits s.
Proof.
  intros Hs.
  assert (Hall : Forall (λ s, Fmt.format_02d s = two_digits s) (seqZ 0 60)).
  { apply (bool_decide_unpack _). vm_compute. exact I. }
  rewrite Forall_forall in Hall. apply Hall, elem_of_seqZ. lia.
Qed.

Lemma timestamp_entry_entry (line : CaptionLine) :
  timestamp_entry line = entry line.
Proof.
  unfold timestamp_entry, entry.
  rewrite format_02d_two_digits; [done|].
  apply Z.mod_pos_bound. lia.
Qed.

(** [int_of] drops the fractional part: the result lies between zero and
    the offset, less than one away from it. *)
Lemma int_of_truncates (q : Q) :
  let n := Fmt.int_of q in
  (0 <= q → inject_Z n <= q ∧ q < inject_Z (n + 1))%Q
  ∧ (q <= 0 → inject_Z (n - 1) < q ∧ q <= inject_Z n)%Q.
Proof.
  destruct q as [a b]. unfold Fmt.int_of, Qle, Qlt. simpl.
  pose proof (Z.quot_rem' a (Z.pos b)) as Hqr.
  set (n := (a `quot` Z.pos b)%Z) in *.
  set (r := (a `rem` Z.pos b)%Z) in *.
  split; intros Ha.
  - assert (0 ≤ r < Z.pos b)%Z by (apply Z.rem_bound_pos_pos; lia). nia.
  - assert (- Z.pos b < r ≤ 0)%Z by (apply Z.rem_bound_pos_neg; lia). nia.
Qed.

(** C3. On a resolved URL, the timestamps operation turns each caption
    line, in source order, into "<minutes>:<SS> - <text>": the start
    offset is truncated to whole seconds, minutes are its quotient by 60
    written as a plain decimal numeral with no leading zero, and the
    remainder is written with two digits. Offsets 65, 5 and 125 give
    "1:05", "0:05" and "2:05", and no caption line gives the empty list. *)
Theorem timestamps_formatted url languages id captions :
  resolves url id →
  transcript_source W id (Some (languages_or languages ["en"])) = inr captions →
  outcome (get_video_timestamps W url languages) = Ok (entry <$> captions)
  ∧ (captions = [] → outcome (get_video_timestamps W url languages) = Ok [])
  ∧ (∀ line, let whole := Fmt.int_of (start line) in
             (0 <= start line →
              inject_Z whole <= start line ∧ start line < inject_Z (whole + 1))%Q
             ∧ (start line <= 0 →
                inject_Z (whole - 1) < start line ∧ start line <= inject_Z whole)%Q
             ∧ (0 ≤ whole `mod` 60 < 60)%Z
             ∧ String.length (two_digits (whole `mod` 60)) = 2%nat)
  ∧ (∀ minutes, (0 ≤ minutes)%Z →
       decimal_value (Fmt.str_int minutes) = minutes
       ∧ ((1 ≤ minutes)%Z →
          ∃ c r, Fmt.str_int minutes = String c r ∧ c ≠ "0"%char))
  ∧ (∀ t d, timestamp_entry {| text := t; start := 65; duration := d |}
            = "1:05 - " +:+ t
            ∧ timestamp_entry {| text := t; start := 5; duration := d |}
              = "0:05 - " +:+ t
            ∧ timestamp_entry {| text := t; start := 125; duration := d |}
              = "2:05 - " +:+ t).
Proof.
  intros Hres Hsrc.
  assert (Hout : outcome (get_video_timestamps W url languages)
                 = Ok (entry <$> captions)).
  { unfold get_video_timestamps.
    rewrite (resolves_truthy _ _ Hres), (resolve_video_id_ok _ _ Hres).
    unfold_run. rewrite Hsrc. simpl. rewrite foldl_snoc. simpl.
    f_equal. apply list_fmap_ext. intros _ line _.
    apply timestamp_entry_entry. }
  split; [exact Hout|]. split; [by intros ->|]. split.
  - intros line whole.
    destruct (int_of_truncates (start line)) as [Hpos Hneg].
    repeat split; try (by apply Hpos); try (by apply Hneg).
    all: apply Z.mod_pos_bound; lia.
  - split; [apply str_int_decimal|].
    intros t d. repeat split; reflexivity.
Qed.

End Operations.

(** ** Concrete inputs *)

Section Concrete.
Import UrlLib YouTubeTools Spec Scenario.

Lemma watch_url_resolves : resolves (H := ascii_only) watch_url "dQw4w9WgXcQ".
Proof. split; [vm_compute; reflexivity | discriminate]. Defined.

Lemma extraction_of_plain_ids_witness :
  plain_id "dQw4w9WgXcQ" = true
  ∧ get_youtube_video_id (H := ascii_only)
      ("https" +:+ "://" +:+ "www.youtube.com" +:+ "/watch?v=" +:+ "dQw4w9WgXcQ")
    = Ok (Some "dQw4w9WgXcQ").
Proof.
  split; [reflexivity|].
  destruct (extraction_of_plain_ids (H := ascii_only) "dQw4w9WgXcQ" eq_refl)
    as [Hshapes _].
  destruct (Hshapes "https" "www.youtube.com"
              ltac:(by_evaluation) ltac:(by_evaluation)) as (_ & Hwatch & _).
  exact Hwatch.
Defined.

(** C1 as stated fails: a slash, a question mark or an ampersand inside
    the identifier cuts it short. *)
Lemma extraction_can_alter_the_id :
  get_youtube_video_id (H := ascii_only)
    ("https://www.youtube.com/embed/" +:+ "a/b") = Ok (Some "a")
  ∧ get_youtube_video_id (H := ascii_only)
      ("https://youtu.be/" +:+ "a?b") = Ok (Some "a")
  ∧ get_youtube_video_id (H := ascii_only)
      ("https://www.youtube.com/watch?v=" +:+ "a&b") = Ok (Some "a").
Proof. repeat split; vm_compute; reflexivity. Qed.

Lemma watch_returns_first_v_witness :
  urlparse (H := ascii_only) "https://www.youtube.com/watch?v=a&v=b"
  = Ok watch_parsed
  ∧ get_youtube_video_id (H := ascii_only)
      "https://www.youtube.com/watch?v=a&v=b" = Ok (Some "a").
Proof.
  split; [vm_compute; reflexivity|].
  destruct (watch_returns_first_v (H := ascii_only)
              "https://www.youtube.com/watch?v=a&v=b" watch_parsed
              ltac:(vm_compute; reflexivity) ltac:(by_evaluation) eq_refl)
    as [Hfirst _].
  exact Hfirst.
Defined.

Lemma youtu_be_returns_path_after_slash_witness :
  urlparse (H := ascii_only) "https://youtu.be/dQw4w9WgXcQ?t=10"
  = Ok short_parsed
  ∧ get_youtube_video_id (H := ascii_only)
      "https://youtu.be/dQw4w9WgXcQ?t=10" = Ok (Some "dQw4w9WgXcQ").
Proof.
  split; [vm_compute; reflexivity|].
  destruct (youtu_be_returns_path_after_slash (H := ascii_only)
              "https://youtu.be/dQw4w9WgXcQ?t=10" short_parsed
              ltac:(vm_compute; reflexivity) ltac:(vm_compute; reflexivity))
    as [[[Hempty _] | (rest & Hpath & Hid)] _]; [discriminate Hempty|].
  injection Hpath as <-. exact Hid.
Defined.

Lemma captions_joined_or_literal_witness :
  outcome (get_video_captions (H := ascii_only) answering watch_url None)
  = Ok "Hello world".
Proof.
  exact (captions_joined_or_literal (H := ascii_only) answering watch_url
           None "dQw4w9WgXcQ" hello_world watch_url_resolves eq_refl).
Defined.

Lemma timestamps_formatted_witness :
  outcome (get_video_timestamps (H := ascii_only) answering watch_url None)
  = Ok ["0:00 - Hello"; "1:02 - world"].
Proof.
  exact (proj1 (timestamps_formatted (H := ascii_only) answering watch_url
                  None "dQw4w9WgXcQ" hello_world watch_url_resolves eq_refl)).
Defined.

Lemma invalid_input_400_without_calls_witness :
  ∃ detail,
    get_video_captions (H := ascii_only) answering
      "https://example.com/watch?v=dQw4w9WgXcQ" None
    = {| calls := []; outcome := Raise (HTTPException 400 detail) |}.
Proof.
  destruct (invalid_input_400_without_calls (H := ascii_only) answering
              "https://example.com/watch?v=dQw4w9WgXcQ" None)
    as (detail & _ & _ & Hcaptions & _).
  - right. right. intros [id [Hid _]]. vm_compute in Hid. discriminate.
  - exists detail. exact Hcaptions.
Defined.

Lemma upstream_failure_500_with_message_witness :
  outcome (get_video_captions (H := ascii_only) failing watch_url None)
  = Raise (HTTPException 500
             "Error getting captions for video: Subtitles are disabled for this video")
  ∧ outcome (get_video_data (H := ascii_only) failing watch_url)
    = Raise (HTTPException 500
               "Error getting video data: HTTP Error 404: Not Found").
Proof.
  destruct (upstream_failure_500_with_message (H := ascii_only) failing
              watch_url None "dQw4w9WgXcQ"
              (Failure "TranscriptsDisabled"
                       "Subtitles are disabled for this video")
              watch_url_resolves) as (Hcaptions & _).
  destruct (upstream_failure_500_with_message (H := ascii_only) failing
              watch_url None "dQw4w9WgXcQ"
              (Failure "HTTPError" "HTTP Error 404: Not Found")
              watch_url_resolves) as (_ & _ & Hdata & _).
  split; [exact (Hcaptions eq_refl) | exact (Hdata eq_refl)].
Defined.

Lemma language_defaults_witness :
  calls (get_video_timestamps (H := ascii_only) answering watch_url None)
  = [GetTranscript "dQw4w9WgXcQ" (Some ["en"])]
  ∧ calls (get_video_captions (H := ascii_only) answering watch_url None)
    = [GetTranscript "dQw4w9WgXcQ" None].
Proof.
  destruct (language_defaults (H := ascii_only) answering watch_url
              "dQw4w9WgXcQ" watch_url_resolves) as (Ht & Hc & _).
  split; [exact Ht | exact Hc].
Defined.

Lemma empty_language_list_as_omitted_witness :
  get_video_captions (H := ascii_only) answering watch_url (Some [])
  = get_video_captions (H := ascii_only) answering watch_url None.
Proof.
  exact (proj1 (empty_language_list_as_omitted (H := ascii_only) answering
                  watch_url "dQw4w9WgXcQ" watch_url_resolves)).
Defined.

Lemma metadata_projection_witness :
  ∃ clean_data,
    outcome (get_video_data (H := ascii_only) answering watch_url)
    = Ok clean_data
    ∧ clean_data !! "title" = Some (JString "Never Gonna Give You Up")
    ∧ clean_data !! "author_name" = Some JNull.
Proof.
  destruct (metadata_projection (H := ascii_only) answering watch_url
              "dQw4w9WgXcQ" _ watch_url_resolves eq_refl)
    as (clean_data & Hout & _ & Hfields).
  exists clean_data. split; [exact Hout|]. split.
  - exact (Hfields "title" ltac:(by_evaluation)).
  - exact (Hfields "author_name" ltac:(by_evaluation)).
Defined.

(** What the library's parsing means for some inputs. *)

(** Without a scheme or a leading [//] there is no hostname. *)
Example no_scheme_no_hostname :
  get_youtube_video_id (H := ascii_only) "youtu.be/dQw4w9WgXcQ" = Ok None.
Proof. vm_compute. reflexivity. Qed.

(** The short form keeps an ampersand and what follows it. *)
Example short_url_keeps_ampersand :
  get_youtube_video_id (H := ascii_only) "https://youtu.be/abc&feature=share"
  = Ok (Some "abc&feature=share").
Proof. vm_compute. reflexivity. Qed.

(** [urlparse] keeps the parameters of the last path segment apart from
    the path. *)
Example path_parameters_are_apart :
  get_youtube_video_id (H := ascii_only) "https://youtu.be/abc;x=1"
  = Ok (Some "abc").
Proof. vm_compute. reflexivity. Qed.

(** A short URL with nothing after the slash gives the empty string, which
    the operations then refuse. *)
Example short_url_empty_id :
  get_youtube_video_id (H := ascii_only) "https://youtu.be/" = Ok (Some "")
  ∧ outcome (get_video_captions (H := ascii_only) answering
               "https://youtu.be/" None)
    = Raise (HTTPException 400 "Error getting video ID from URL").
Proof. split; vm_compute; reflexivity. Qed.

(** [parse_qs] leaves out a field whose value is empty. *)
Example blank_value_is_no_parameter :
  get_youtube_video_id (H := ascii_only)
    "https://www.youtube.com/watch?v=&v=b" = Ok (Some "b")
  ∧ get_youtube_video_id (H := ascii_only)
      "https://www.youtube.com/watch?v=" = Ok None.
Proof. split; vm_compute; reflexivity. Qed.

(** Query values are percent-decoded, and [+] reads as a space. *)
Example query_value_is_decoded :
  get_youtube_video_id (H := ascii_only)
    "https://www.youtube.com/watch?v=a%2Fb+c" = Ok (Some "a/b c").
Proof. vm_compute. reflexivity. Qed.

End Concrete.

(** ** How the handlers end *)

Section Outcomes.
Import UrlLib YouTubeTools Spec Shape.
Context `{PyLib}.
Variable W : Collaborators.

Lemma resolved_or_not url :
  (∃ id, resolves url id) ∨ ¬ (∃ id, resolves url id).
Proof.
  destruct (get_youtube_video_id url) as [[[|c id]|]|e] eqn:Hid.
  - right. intros [id [Hid' Hne]]. rewrite Hid in Hid'. by injection Hid' as <-.
  - left. exists (String c id). by split.
  - right. intros [id [Hid' _]]. rewrite Hid in Hid'. discriminate.
  - right. intros [id [Hid' _]]. rewrite Hid in Hid'. discriminate.
Qed.



End Outcomes.

(** ** What goes out, and for which URLs *)

Section Outbound.
Import UrlLib YouTubeTools Spec Shape.
Context `{PyLib}.
Variable W : Collaborators.

Lemma all_chars_append P a b :
  all_chars P (a +:+ b) = all_chars P a && all_chars P b.
Proof.
  unfold all_chars. induction a as [|x a IH]; [done|].
  change (String x a +:+ b) with (String x (a +:+ b)). simpl.
  by rewrite IH, andb_assoc.
Qed.

Lemma all_chars_contains P c s :
  all_chars P s = true → P c = false → Py.contains c s = false.
Proof.
  unfold all_chars. intros Hall Hc. induction s as [|x s IH]; [done|].
  simpl in *. apply andb_prop in Hall as [Hx Hall]. rewrite (IH Hall).
  destruct (Ascii.eqb_spec x c) as [-> | _]; [|done]. by rewrite Hc in Hx.
Qed.

Lemma quote_plus_append a b :
  quote_plus (a +:+ b) = quote_plus a +:+ quote_plus b.
Proof.
  induction a as [|x a IH]; [done|].
  change (String x a +:+ b) with (String x (a +:+ b)). simpl.
  by rewrite IH, append_assoc.
Qed.

Lemma quote_plus_char_alphabet (c : ascii) :
  all_chars quoted_char (quote_plus (String c "")) = true.
Proof. destruct c as [[] [] [] [] [] [] [] []]; vm_compute; reflexivity. Qed.

(** [quote_plus] writes only letters, digits, [_ . - ~], [%] and [+]. *)
Lemma quote_plus_alphabet (s : string) :
  all_chars quoted_char (quote_plus s) = true.
Proof.
  induction s as [|c s IH]; [done|].
  change (String c s) with (String c "" +:+ s).
  by rewrite quote_plus_append, all_chars_append, quote_plus_char_alphabet, IH.
Qed.


Lemma unresolved_no_calls url languages :
  ¬ (∃ id, resolves url id) →
  calls (get_video_data W url) = []
  ∧ calls (get_video_captions W url languages) = []
  ∧ calls (get_video_timestamps W url languages) = [].
Proof.
  intros Hno. unfold get_video_data, get_video_captions, get_video_timestamps.
  rewrite (resolve_video_id_fails _ Hno).
  destruct (Py.truthy url); repeat split.
Qed.

Lemma resolves_youtube_host url id :
  resolves url id →
  ∃ p, urlparse url = Ok p
       ∧ hostname p ∈ [Some "youtu.be"; Some "youtube.com"; Some "www.youtube.com"].
Proof.
  intros [Hid Hne]. destruct (urlparse url) as [p|e] eqn:Hp.
  - exists p. split; [done|].
    destruct (decide (hostname p ∈ [Some "youtu.be"; Some "youtube.com";
                                    Some "www.youtube.com"])) as [Hin | Hout];
      [done|].
    rewrite (video_id_other_host _ _ Hp Hout) in Hid. discriminate.
  - unfold get_youtube_video_id in Hid. rewrite Hp in Hid. discriminate.
Qed.

(** X2. A handler reaches a collaborator only for a URL that [urlparse]
    accepts with hostname youtu.be, youtube.com or www.youtube.com: for any
    other request the list of outbound calls is empty. *)
Theorem calls_only_for_youtube_hosts (request : App.YouTubeRequest) :
  calls (App.get_video_data W request) ≠ []
  ∨ calls (App.get_video_captions W request) ≠ []
  ∨ calls (App.get_video_timestamps W request) ≠ [] →
  ∃ p, urlparse (App.url request) = Ok p
       ∧ hostname p ∈ [Some "youtu.be"; Some "youtube.com"; Some "www.youtube.com"].
Proof.
  destruct request as [url languages]. simpl App.url.
  unfold App.get_video_data, App.get_video_captions, App.get_video_timestamps.
  simpl App.url. simpl App.languages. intros Hcalls.
  destruct (resolved_or_not url) as [[id Hres] | Hno].
  - by eapply resolves_youtube_host.
  - destruct (unresolved_no_calls url languages Hno) as (Hd & Hc & Ht).
    rewrite Hd, Hc, Ht in Hcalls. by destruct Hcalls as [? | [? | ?]].
Qed.


End Outbound.

(** ** The query string of the oEmbed request, read back *)

Section QueryRoundTrip.
Import UrlLib YouTubeTools Spec Shape.
Context `{PyLib}.

Lemma replace_append c d a b :
  Py.replace c d (a +:+ b) = Py.replace c d a +:+ Py.replace c d b.
Proof.
  unfold Py.replace. induction a as [|x a IH]; [done|].
  change (String x a +:+ b) with (String x (a +:+ b)). simpl.
  rewrite IH. reflexivity.
Qed.

Lemma unquote_to_bytes_cons c r :
  Ascii.eqb c "%" = false →
  unquote_to_bytes (String c r) = String c (unquote_to_bytes r).
Proof.
  intros Hc. unfold unquote_to_bytes. simpl. rewrite Hc.
  pose proof (split_nonempty "%" r). by destruct (Py.split "%" r).
Qed.

Lemma unquote_to_bytes_escape h1 h2 x y c r :
  hex_value h1 = Some x → hex_value h2 = Some y →
  ascii_of_nat (16 * x + y) = c →
  unquote_to_bytes (String "%" (String h1 (String h2 r)))
  = String c (unquote_to_bytes r).
Proof.
  intros H1 H2 <-. unfold unquote_to_bytes.
  assert (N1 : Ascii.eqb h1 "%" = false).
  { destruct (Ascii.eqb_spec h1 "%") as [-> | _]; [discriminate H1 | done]. }
  assert (N2 : Ascii.eqb h2 "%" = false).
  { destruct (Ascii.eqb_spec h2 "%") as [-> | _]; [discriminate H2 | done]. }
  simpl Py.split. rewrite N1, N2.
  pose proof (split_nonempty "%" r).
  destruct (Py.split "%" r) as [|first items]; [done|].
  rewrite fmap_cons, join_empty_cons. unfold unquote_item at 1.
  rewrite H1, H2. reflexivity.
Qed.

Lemma unquote_quoted_char (c : ascii) (t : string) :
  unquote_to_bytes (Py.replace "+" " " (quote_plus (String c "")) +:+ t)
  = String c (unquote_to_bytes t).
Proof.
  destruct c as [[] [] [] [] [] [] [] []];
    match goal with
    | |- unquote_to_bytes (?q +:+ _) = _ =>
        let q' := eval vm_compute in q in change q with q'
    end;
    cbv [String.append];
    first [ apply unquote_to_bytes_cons; reflexivity
          | eapply unquote_to_bytes_escape; reflexivity ].
Qed.

(** Decoding the bytes of an encoded string gives the string back. *)
Lemma unquote_to_bytes_quote_plus (s : string) :
  unquote_to_bytes (Py.replace "+" " " (quote_plus s)) = s.
Proof.
  induction s as [|c s IH]; [done|].
  change (String c s) with (String c "" +:+ s) at 1.
  rewrite quote_plus_append, replace_append, unquote_quoted_char.
  by rewrite IH.
Qed.

Lemma quoted_char_ascii (c : ascii) :
  quoted_char c = true →
  Py.is_ascii_char (if Ascii.eqb c "+" then " "%char else c) = true.
Proof.
  destruct c as [[] [] [] [] [] [] [] []]; vm_compute; intros Hc;
    first [reflexivity | discriminate].
Qed.

Lemma replaced_quote_plus_ascii (s : string) :
  Py.isascii (Py.replace "+" " " (quote_plus s)) = true.
Proof.
  pose proof (quote_plus_alphabet s) as Halpha. revert Halpha.
  generalize (quote_plus s). intros q. unfold all_chars, Py.isascii, Py.replace.
  induction q as [|c q IH]; [done|]. simpl.
  intros [Hc Hq]%andb_prop. by rewrite (quoted_char_ascii _ Hc), IH.
Qed.

Lemma ascii_runs_ascii (t : string) :
  Py.isascii t = true → t ≠ "" → ascii_runs t = [(true, t)].
Proof.
  unfold Py.isascii. induction t as [|c t IH]; [done|]. simpl.
  intros [Hc Ht]%andb_prop _. rewrite Hc.
  destruct t as [|c' t']; [done|]. by rewrite IH.
Qed.

(** For ASCII text, [unquote] after [+] to space undoes [quote_plus]. *)
Lemma unquote_quote_plus (s : string) :
  Py.isascii s = true → unquote (Py.replace "+" " " (quote_plus s)) = s.
Proof.
  intros Hs. pose proof (unquote_to_bytes_quote_plus s) as Hbytes.
  pose proof (replaced_quote_plus_ascii s) as Hascii.
  revert Hbytes Hascii. generalize (Py.replace "+" " " (quote_plus s)).
  intros t Hbytes Hascii. unfold unquote.
  destruct (Py.contains "%" t) eqn:Hpct; simpl.
  - rewrite ascii_runs_ascii; [|done|by intros ->]. simpl.
    rewrite Hbytes. unfold decode. by rewrite Hs.
  - unfold unquote_to_bytes in Hbytes. rewrite (split_absent _ _ Hpct) in Hbytes.
    simpl in Hbytes. by rewrite append_empty_r in Hbytes.
Qed.

Lemma quote_plus_truthy c s : Py.truthy (quote_plus (String c s)) = true.
Proof.
  simpl. destruct (always_safe c); [done|]. by destruct (Ascii.eqb c " ").
Qed.

Lemma partition_append_found c a b :
  Py.contains c a = false →
  Py.partition c (a +:+ String c b) = (a, String c "", b).
Proof.
  induction a as [|x a IH]; simpl.
  - intros _. change ("" +:+ String c b) with (String c b). simpl.
    by rewrite Ascii.eqb_refl.
  - intros [Hx Ha]%orb_false_elim.
    change (String x a +:+ String c b) with (String x (a +:+ String c b)).
    simpl. by rewrite Hx, (IH Ha).
Qed.

Lemma split_append_sep c a b :
  Py.contains c a = false →
  Py.split c (a +:+ String c b) = a :: Py.split c b.
Proof.
  induction a as [|x a IH]; simpl.
  - intros _. change ("" +:+ String c b) with (String c b). simpl.
    by rewrite Ascii.eqb_refl.
  - intros [Hx Ha]%orb_false_elim.
    change (String x a +:+ String c b) with (String x (a +:+ String c b)).
    simpl. by rewrite Hx, (IH Ha).
Qed.

(** One encoded pair is read back as the pair. *)
Lemma query_parameter_quoted k v :
  Py.isascii k = true → Py.isascii v = true → v ≠ "" →
  query_parameter (quote_plus k +:+ "=" +:+ quote_plus v) = Some (k, v).
Proof.
  intros Hk Hv Hne. unfold query_parameter.
  change ("=" +:+ quote_plus v) with (String "=" (quote_plus v)).
  rewrite partition_append_found
    by (apply (all_chars_contains quoted_char); [apply quote_plus_alphabet | done]).
  destruct v as [|c v]; [done|].
  pose proof (quote_plus_truthy c v) as Ht.
  destruct (quote_plus (String c v)) as [|c' q'] eqn:Hq; [done|].
  rewrite <- Hq. by rewrite !unquote_quote_plus.
Qed.

Lemma oembed_query_reads_back (video_id : string) :
  Py.isascii video_id = true →
  let params := [("format", "json");
                 ("url", "https://www.youtube.com/watch?v=" +:+ video_id)] in
  parse_qsl (urlencode params) = params.
Proof.
  intros Hid params. rewrite parse_qsl_parameters. unfold query_parameters.
  set (watch := "https://www.youtube.com/watch?v=" +:+ video_id).
  assert (Hwatch : Py.isascii watch = true).
  { unfold watch.
    change (Py.isascii ?s) with (all_chars Py.is_ascii_char s).
    by rewrite all_chars_append. }
  assert (Hne : watch ≠ "").
  { unfold watch. cbv [String.append]. discriminate. }
  change (urlencode params)
    with ("format=json" +:+ String "&" (quote_plus "url" +:+ "=" +:+ quote_plus watch)).
  rewrite split_append_sep by reflexivity.
  rewrite split_absent.
  2:{ rewrite !contains_append.
      rewrite (all_chars_contains quoted_char "&" (quote_plus watch))
        by (apply quote_plus_alphabet || done).
      reflexivity. }
  pose proof (query_parameter_quoted "url" watch eq_refl Hwatch Hne) as Hurl.
  revert Hurl. generalize (quote_plus "url" +:+ "=" +:+ quote_plus watch).
  intros piece Hpiece. cbn [omap list_omap]. rewrite Hpiece. reflexivity.
Qed.

(** X4. On a resolved URL with an ASCII identifier, the one address the
    metadata operation requests is the oEmbed endpoint followed by a query
    string that reads back, with [parse_qsl], as exactly two parameters:
    format=json and url= the watch address of the identifier.  Whatever
    characters the identifier holds, the encoding loses none of them and
    adds no parameter. *)
Theorem oembed_query_round_trip (W : Collaborators) url video_id :
  resolves url video_id →
  Py.isascii video_id = true →
  ∃ query_string,
    calls (get_video_data W url)
    = [UrlOpen ("https://www.youtube.com/oembed?" +:+ query_string)]
    ∧ parse_qsl query_string
      = [("format", "json");
         ("url", "https://www.youtube.com/watch?v=" +:+ video_id)].
Proof.
  intros Hres Hid.
  exists (urlencode [("format", "json");
                     ("url", "https://www.youtube.com/watch?v=" +:+ video_id)]).
  split; [|by apply oembed_query_reads_back].
  unfold get_video_data.
  rewrite (resolves_truthy _ _ Hres), (resolve_video_id_ok _ _ Hres).
  unfold_run.
  match goal with
  | |- context [oembed_provider W ?u] =>
      destruct (oembed_provider W u) as [f|v]
  end; [done|]. by destruct v.
Qed.

End QueryRoundTrip.

(** ** What extraction does not look at *)

Section Blanks.
Import UrlLib YouTubeTools Spec Shape.
Context `{PyLib}.

Lemma lstrip_blank_prefix strip ws s :
  all_chars strip ws = true → Py.lstrip strip (ws +:+ s) = Py.lstrip strip s.
Proof.
  unfold all_chars. induction ws as [|x ws IH]; [done|]. simpl.
  intros [Hx Hws]%andb_prop.
  change (String x ws +:+ s) with (String x (ws +:+ s)). simpl.
  by rewrite Hx, IH.
Qed.

Lemma remove_append c a b :
  Py.remove c (a +:+ b) = Py.remove c a +:+ Py.remove c b.
Proof.
  induction a as [|x a IH]; [done|].
  change (String x a +:+ b) with (String x (a +:+ b)). simpl.
  destruct (Ascii.eqb x c); [done|].
  change (String x ?u +:+ ?v) with (String x (u +:+ v)). by rewrite IH.
Qed.

Lemma strip_unsafe_append a b :
  strip_unsafe (a +:+ b) = strip_unsafe a +:+ strip_unsafe b.
Proof. unfold strip_unsafe. by rewrite !remove_append. Qed.

Lemma strip_unsafe_cons c s :
  strip_unsafe (String c s)
  = if bool_decide (c ∈ [TAB; LF; CR]) then strip_unsafe s
    else String c (strip_unsafe s).
Proof.
  unfold strip_unsafe. simpl.
  destruct (Ascii.eqb_spec c TAB) as [-> | Ht]; [done|]. simpl.
  destruct (Ascii.eqb_spec c CR) as [-> | Hc]; [done|]. simpl.
  destruct (Ascii.eqb_spec c LF) as [-> | Hl]; [done|].
  rewrite bool_decide_eq_false_2; [done|].
  rewrite !not_elem_of_cons. auto using not_elem_of_nil.
Qed.

Lemma unsafe_is_blank c :
  c ∈ [TAB; LF; CR] → c0_control_or_space c = true.
Proof. intros Hc. by each_of Hc. Qed.

(** Deleting tabs and line ends and dropping leading blanks commute. *)
Lemma lstrip_strip_unsafe s :
  Py.lstrip c0_control_or_space (strip_unsafe s)
  = strip_unsafe (Py.lstrip c0_control_or_space s).
Proof.
  induction s as [|c s IH]; [done|].
  rewrite strip_unsafe_cons. simpl. case_bool_decide as Hc.
  - by rewrite (unsafe_is_blank _ Hc).
  - simpl. destruct (c0_control_or_space c); [done|].
    rewrite strip_unsafe_cons. by rewrite bool_decide_eq_false_2.
Qed.

(** [urlsplit] sees its argument only after the leading blanks and every
    tab and line end are gone. *)
Lemma urlsplit_normal a b :
  strip_unsafe (Py.lstrip c0_control_or_space a)
  = strip_unsafe (Py.lstrip c0_control_or_space b) →
  urlsplit a = urlsplit b.
Proof.
  unfold strip_unsafe, urlsplit. cbv zeta. by intros ->.
Qed.

(** X5. The extractor does not see blanks before the URL, nor a tab, a
    line feed or a carriage return anywhere in it: with any run of
    characters up to the space put in front and one of those three put
    anywhere, the outcome is the one for the URL without them. *)
Theorem leading_blanks_and_line_ends_ignored (ws a b : string) (c : ascii) :
  all_chars c0_control_or_space ws = true →
  c ∈ [TAB; LF; CR] →
  get_youtube_video_id (ws +:+ a +:+ String c b)
  = get_youtube_video_id (a +:+ b).
Proof.
  intros Hws Hc.
  assert (Hsplit : urlsplit (ws +:+ a +:+ String c b) = urlsplit (a +:+ b)).
  { apply urlsplit_normal. rewrite (lstrip_blank_prefix _ _ _ Hws).
    rewrite <- !lstrip_strip_unsafe. f_equal.
    rewrite !strip_unsafe_append, strip_unsafe_cons.
    by rewrite bool_decide_eq_true_2. }
  unfold get_youtube_video_id, urlparse. by rewrite Hsplit.
Qed.

End Blanks.

(** ** The identifier in an /embed/ or /v/ path *)

Section Segments.
Import UrlLib YouTubeTools Spec Shape.
Context `{PyLib}.

(** The first piece of a split is what stands before the first
    separator. *)
Lemma split_first c s : head (Py.split c s) = Some (cut_at c s).1.
Proof.
  unfold cut_at. induction s as [|x s IH]; [done|]. simpl.
  destruct (Ascii.eqb x c) eqn:Hx; [done|]. simpl.
  pose proof (split_nonempty c s) as Hne.
  destruct (Py.split c s) as [|h t]; [done|]. simpl in *.
  injection IH as ->.
  destruct (Py.contains c s); [|done].
  by destruct (Py.partition c s) as [[a sep] b].
Qed.

Lemma split_after_prefix prefix r :
  prefix ∈ ["/embed/"; "/v/"] →
  Py.split "/" (prefix +:+ r) !! 2%nat = Some (cut_at "/" r).1.
Proof.
  intros Hprefix. pose proof (split_first "/" r) as Hfirst.
  pose proof (split_nonempty "/" r).
  each_of Hprefix; cbv [String.append]; simpl;
    destruct (Py.split "/" r) as [|h t]; done.
Qed.

Lemma prefix_not_watch prefix r :
  prefix ∈ ["/embed/"; "/v/"] → prefix +:+ r ≠ "/watch".
Proof. intros Hprefix. each_of Hprefix; cbv [String.append]; discriminate. Qed.

Lemma prefix_startswith prefix r :
  prefix ∈ ["/embed/"; "/v/"] →
  Py.startswith "/embed/" (prefix +:+ r) || Py.startswith "/v/" (prefix +:+ r)
  = true.
Proof. intros Hprefix. each_of Hprefix; cbv [String.append]; simpl; done. Qed.

(** X6. On youtube.com and www.youtube.com, a path that is /embed/ or /v/
    followed by some text gives that text up to its first slash, all of it
    when it has none: /embed/abc/def gives abc, and /embed/ alone gives
    the empty string.  The result never holds a slash, a question mark or
    a hash sign. *)
Theorem segment_is_cut_at_next_slash url p prefix r :
  urlparse url = Ok p →
  hostname p ∈ [Some "youtube.com"; Some "www.youtube.com"] →
  prefix ∈ ["/embed/"; "/v/"] →
  path p = prefix +:+ r →
  let segment := (cut_at "/" r).1 in
  get_youtube_video_id url = Ok (Some segment)
  ∧ Py.contains "/" segment = false
  ∧ Py.contains "?" segment = false
  ∧ Py.contains "#" segment = false.
Proof.
  intros Hp Hh Hprefix Hpath segment. split.
  - rewrite (video_id_segment url p Hp Hh).
    + by rewrite Hpath, split_after_prefix.
    + rewrite Hpath. by apply prefix_not_watch.
    + rewrite Hpath. by apply prefix_startswith.
  - destruct (urlparse_path_clean _ _ Hp) as [Hq Hf].
    rewrite Hpath, contains_append in Hq, Hf.
    apply orb_false_elim in Hq as [_ Hq]. apply orb_false_elim in Hf as [_ Hf].
    destruct (cut_at "/" r) as [u t] eqn:Hcut. subst segment. simpl.
    destruct (cut_absent _ _ _ _ Hcut) as [Hslash Hkeep]. auto.
Qed.

End Segments.

(** ** The spelling of the host *)

Section HostCase.
Import UrlLib YouTubeTools Spec Shape.
Context `{PyLib}.

Lemma lower_char_keeps (x c : ascii) :
  x ∈ ["@"; "["; ":"; "%"]%char →
  Ascii.eqb (Py.lower_char c) x = Ascii.eqb c x.
Proof.
  intros Hx.
  each_of Hx; destruct c as [[] [] [] [] [] [] [] []]; vm_compute; reflexivity.
Qed.

Lemma contains_lower (x : ascii) (s : string) :
  x ∈ ["@"; "["; ":"; "%"]%char →
  Py.contains x (Py.map_str Py.lower_char s) = Py.contains x s.
Proof.
  intros Hx. induction s as [|c s IH]; [done|]. simpl.
  by rewrite (lower_char_keeps _ _ Hx), IH.
Qed.

Lemma lower_char_ascii (c : ascii) :
  Py.is_ascii_char (Py.lower_char c) = Py.is_ascii_char c.
Proof. destruct c as [[] [] [] [] [] [] [] []]; vm_compute; reflexivity. Qed.

Lemma isascii_lower (s : string) :
  Py.isascii (Py.map_str Py.lower_char s) = Py.isascii s.
Proof.
  unfold Py.isascii. induction s as [|c s IH]; [done|]. simpl.
  by rewrite lower_char_ascii, IH.
Qed.

Lemma rpartition_absent c s :
  Py.contains c s = false → Py.rpartition c s = ("", "", s).
Proof.
  induction s as [|x s IH]; simpl; [done|].
  intros [Hx Hs]%orb_false_elim. by rewrite (IH Hs), Hx.
Qed.

(** A netloc that is only a host name: no user, no port, no bracket, no
    zone. *)
Lemma hostname_plain_netloc p :
  netloc p ≠ "" → Py.isascii (netloc p) = true →
  (∀ x, x ∈ ["@"; "["; ":"; "%"]%char → Py.contains x (netloc p) = false) →
  hostname p = Some (Py.map_str Py.lower_char (netloc p)).
Proof.
  intros Hne Hascii Habsent. unfold hostname, _hostinfo.
  rewrite (rpartition_absent "@") by (apply Habsent; by_evaluation).
  rewrite (partition_absent "[") by (apply Habsent; by_evaluation). simpl.
  rewrite (partition_absent ":") by (apply Habsent; by_evaluation).
  destruct (netloc p) as [|c nl] eqn:Hnl; [done|]. simpl Py.truthy. simpl negb.
  cbv iota. rewrite <- Hnl in *.
  rewrite (partition_absent "%") by (apply Habsent; by_evaluation).
  unfold lower. by rewrite Hascii, !append_empty_r.
Qed.

Lemma lowered_host_plain nl host :
  Py.map_str Py.lower_char nl = host →
  host ∈ ["youtu.be"; "youtube.com"; "www.youtube.com"] →
  nl ≠ "" ∧ Py.isascii nl = true
  ∧ ∀ x, x ∈ ["@"; "["; ":"; "%"]%char → Py.contains x nl = false.
Proof.
  intros Hlow Hhost. split; [|split].
  - intros ->. simpl in Hlow. subst host. revert Hhost.
    change ("" ∉ ["youtu.be"; "youtube.com"; "www.youtube.com"]).
    by_evaluation.
  - rewrite <- isascii_lower, Hlow. by each_of Hhost.
  - intros x Hx. rewrite <- (contains_lower _ _ Hx), Hlow.
    by each_of Hhost; each_of Hx.
Qed.

(** X7. The host is compared without regard to letter case: when the
    network location of the parsed URL, put in lower case, is youtu.be,
    youtube.com or www.youtube.com, extraction proceeds as for that host.
    For youtu.be the result is the path after its first character, and
    for the other two with the path /watch it is the first [v]
    parameter. *)
Theorem host_case_is_ignored url p host :
  urlparse url = Ok p →
  Py.map_str Py.lower_char (netloc p) = host →
  host ∈ ["youtu.be"; "youtube.com"; "www.youtube.com"] →
  hostname p = Some host
  ∧ (host = "youtu.be" →
     get_youtube_video_id url = Ok (Some (Py.drop 1 (path p))))
  ∧ (host ≠ "youtu.be" → path p = "/watch" →
     get_youtube_video_id url = Ok (first_value "v" (parse_qsl (query p)))).
Proof.
  intros Hp Hlow Hhost.
  destruct (lowered_host_plain _ _ Hlow Hhost) as (Hne & Hascii & Habsent).
  pose proof (hostname_plain_netloc p Hne Hascii Habsent) as Hh.
  rewrite Hlow in Hh. split; [done|]. split.
  - intros ->. by apply video_id_youtu_be.
  - intros Hother Hpath. apply (video_id_watch url p Hp); [|done].
    rewrite Hh. each_of Hhost; [done | by_evaluation | by_evaluation].
Qed.

End HostCase.

(** ** When extraction cannot raise *)

Section NoRaise.
Import UrlLib YouTubeTools Spec Shape.
Context `{PyLib}.

Lemma all_chars_lstrip P strip s :
  all_chars P s = true → all_chars P (Py.lstrip strip s) = true.
Proof.
  unfold all_chars. induction s as [|x s IH]; [done|]. simpl.
  intros [Hx Hs]%andb_prop. destruct (strip x); [by apply IH|].
  simpl. by rewrite Hx, Hs.
Qed.

Lemma all_chars_remove P c s :
  all_chars P s = true → all_chars P (Py.remove c s) = true.
Proof.
  unfold all_chars. induction s as [|x s IH]; [done|]. simpl.
  intros [Hx Hs]%andb_prop. destruct (Ascii.eqb x c); [by apply IH|].
  simpl. by rewrite Hx, IH.
Qed.

Lemma all_chars_partition P c s a sep b :
  Py.partition c s = (a, sep, b) → all_chars P s = true →
  all_chars P a = true ∧ all_chars P b = true.
Proof.
  intros ->%partition_append. rewrite !all_chars_append.
  intros [Ha [_ Hb]%andb_prop]%andb_prop. done.
Qed.

Lemma all_chars_drop P n s :
  all_chars P s = true → all_chars P (Py.drop n s) = true.
Proof.
  unfold all_chars. revert s. induction n as [|n IH]; intros s; [done|].
  destruct s as [|x s]; [done|]. simpl. intros [_ Hs]%andb_prop. by apply IH.
Qed.

Lemma all_chars_break P stop s a b :
  Py.break stop s = (a, b) → all_chars P s = true →
  all_chars P a = true ∧ all_chars P b = true.
Proof.
  unfold all_chars. revert a b. induction s as [|x s IH]; intros a b; simpl.
  - by intros [= <- <-].
  - destruct (stop x).
    + by intros [= <- <-].
    + destruct (Py.break stop s) as [a' b'].
      intros [= <- <-] [Hx Hs]%andb_prop.
      destruct (IH _ _ eq_refl Hs) as [Ha Hb]. simpl. by rewrite Hx, Ha.
Qed.

Lemma unbracketed_ascii s :
  all_chars ascii_unbracketed s = true → Py.isascii s = true.
Proof.
  unfold all_chars, Py.isascii. induction s as [|x s IH]; [done|]. simpl.
  intros [Hx Hs]%andb_prop. rewrite (IH Hs).
  unfold ascii_unbracketed in Hx.
  apply andb_prop in Hx as [[-> _]%andb_prop _]. done.
Qed.

(** The steps of [urlsplit] after the network location never raise when
    the location is ASCII. *)
Lemma urlsplit_tail (sch nl rest : string) :
  Py.isascii nl = true →
  ∃ r : string * string * string * string * string,
       (let '(url, fragment) :=
          if Py.contains "#" rest
          then let '(a, _, b) := Py.partition "#" rest in (a, b)
          else (rest, "") in
        let '(url, query) :=
          if Py.contains "?" url
          then let '(a, _, b) := Py.partition "?" url in (a, b)
          else (url, "") in
        (_ ← _checknetloc nl ;
         Ok (sch, nl, url, query, fragment)) : Exc _) = Ok r.
Proof.
  intros Hnl.
  match goal with
  | |- ∃ r, (let '(_, _) := ?E in _) = _ => destruct E as [u f]
  end.
  match goal with
  | |- ∃ r, (let '(_, _) := ?E in _) = _ => destruct E as [u' q]
  end.
  unfold _checknetloc. rewrite Hnl, orb_true_r. simpl. by eexists.
Qed.

Lemma urlsplit_returns url :
  all_chars ascii_unbracketed url = true → ∃ r, urlsplit url = Ok r.
Proof.
  intros Hurl. unfold urlsplit.
  match goal with
  | |- context [Py.partition ":" ?u0] => set (url0 := u0)
  end.
  assert (H0 : all_chars ascii_unbracketed url0 = true).
  { unfold url0. by do 3 apply all_chars_remove; apply all_chars_lstrip. }
  match goal with
  | |- ∃ r, (let '(_, _) := ?E in _) = _ =>
      assert (H1 : all_chars ascii_unbracketed E.2 = true);
      [|destruct E as [sch url1]]
  end.
  { destruct (Py.partition ":" url0) as [[before colon] after] eqn:Hpart.
    destruct (all_chars_partition _ _ _ _ _ _ Hpart H0) as [_ Hafter].
    destruct colon; [done|]. destruct before; [done|].
    match goal with |- context [if ?c then _ else _] => by destruct c end. }
  simpl in H1. destruct (Py.startswith "//" url1).
  - unfold _splitnetloc.
    destruct (Py.break (λ c, Py.contains c "/?#") (Py.drop 2 url1))
      as [nl rest] eqn:Hbreak.
    destruct (all_chars_break _ _ _ _ _ Hbreak
                (all_chars_drop _ 2 _ H1)) as [Hnl _].
    rewrite (all_chars_contains ascii_unbracketed "[" nl Hnl eq_refl).
    rewrite (all_chars_contains ascii_unbracketed "]" nl Hnl eq_refl).
    simpl. by apply urlsplit_tail, unbracketed_ascii.
  - exact (urlsplit_tail sch "" url1 eq_refl).
Qed.

(** X8. On a URL made of ASCII characters other than the square
    brackets, extraction never raises: it returns an identifier or "not
    found", whatever the unmodelled library steps would do.  So for such
    a URL the only 400 of the handlers is that of a missing or empty
    identifier. *)
Theorem extraction_returns_on_ascii_urls url :
  all_chars ascii_unbracketed url = true →
  ∃ found, get_youtube_video_id url = Ok found.
Proof.
  intros Hurl. destruct (get_youtube_video_id url) as [found|e] eqn:Hid;
    [by exists found|].
  apply video_id_raises in Hid. unfold urlparse in Hid.
  destruct (urlsplit_returns url Hurl) as [[[[[sch nl] u] q] f] Hsplit].
  rewrite Hsplit in Hid. simpl in Hid.
  match type of Hid with
  | (let '(_, _) := ?E in _) = _ => destruct E
  end. discriminate.
Qed.

End NoRaise.

(** ** The exceptions that leave a handler *)

Section Details.
Import UrlLib YouTubeTools Spec Shape.
Context `{PyLib}.
Variable W : Collaborators.

Lemma unresolved_raises_only {A} prefix (body : string → Run A) url :
  ¬ (∃ id, resolves url id) →
  raises_only prefix
    (if negb (Py.truthy url) then raise (HTTPException 400 "No URL provided")
     else video_id ← resolve_video_id url; body video_id).
Proof.
  intros Hno e. rewrite (resolve_video_id_fails _ Hno).
  destruct (Py.truthy url); unfold_run; intros [= <-]; auto.
Qed.

(** X9. A handler lets out three exceptions and no other: status 400 with
    the detail "No URL provided", status 400 with the detail "Error
    getting video ID from URL", and status 500 with a detail that begins
    with the handler's own prefix.  The detail "Invalid YouTube URL",
    raised inside the first [try] block, is caught there and never
    reaches the caller. *)
Theorem handler_exceptions_are_three (request : App.YouTubeRequest) :
  (raises_only "Error getting video data: " (App.get_video_data W request)
   ∧ raises_only "Error getting captions for video: "
       (App.get_video_captions W request)
   ∧ raises_only "Error generating timestamps: "
       (App.get_video_timestamps W request))
  ∧ ∀ status,
      outcome (App.get_video_data W request)
        ≠ Raise (HTTPException status "Invalid YouTube URL")
      ∧ outcome (App.get_video_captions W request)
        ≠ Raise (HTTPException status "Invalid YouTube URL")
      ∧ outcome (App.get_video_timestamps W request)
        ≠ Raise (HTTPException status "Invalid YouTube URL").
Proof.
  assert (Hthree :
    raises_only "Error getting video data: " (App.get_video_data W request)
    ∧ raises_only "Error getting captions for video: "
        (App.get_video_captions W request)
    ∧ raises_only "Error generating timestamps: "
        (App.get_video_timestamps W request)).
  { destruct request as [url languages].
    unfold App.get_video_data, App.get_video_captions,
      App.get_video_timestamps.
    simpl App.url. simpl App.languages.
    destruct (resolved_or_not url) as [[id Hres] | Hno].
    2:{ repeat split; by apply unresolved_raises_only. }
    unfold get_video_data, get_video_captions, get_video_timestamps.
    rewrite (resolves_truthy _ _ Hres), (resolve_video_id_ok _ _ Hres).
    unfold raises_only. repeat split; intros e; unfold_run.
    - rewrite full_url_oembed_request.
      destruct (oembed_provider W (oembed_request id)) as [f|v]; simpl.
      + intros [= <-]. right. right. by eexists.
      + destruct v; simpl; intros [= <-]; right; right; by eexists.
    - destruct (truthy_languages languages); simpl;
        match goal with
        | |- context [transcript_source W ?a ?b] =>
            destruct (transcript_source W a b) as [?|[|??]]
        end; simpl; intros [= <-]; right; right; by eexists.
    - destruct (transcript_source W id (Some (languages_or languages ["en"])))
        as [?|?]; simpl; intros [= <-]; right; right; by eexists. }
  split; [exact Hthree|]. destruct Hthree as (Hdata & Hcaptions & Htimes).
  intros status.
  repeat split; intros Hout;
    [apply Hdata in Hout | apply Hcaptions in Hout | apply Htimes in Hout];
    destruct Hout as [Hout | [Hout | [message Hout]]];
    try discriminate Hout;
    injection Hout as _ Hdetail; cbv [String.append] in Hdetail;
    discriminate Hdetail.
Qed.

End Details.

(** ** Reading a timestamp back *)

Section ReadBack.
Import UrlLib YouTubeTools Spec Shape.








End ReadBack.

(** ** The parts of a URL that extraction reads *)

Section PartsRead.
Import UrlLib YouTubeTools Spec Shape.
Context `{PyLib}.

Lemma rpartition_append_found c a b :
  Py.contains c b = false →
  Py.rpartition c (a +:+ String c b) = (a, String c "", b).
Proof.
  intros Hb. induction a as [|x a IH].
  - change ("" +:+ String c b) with (String c b). simpl.
    by rewrite (rpartition_absent c b Hb), Ascii.eqb_refl.
  - change (String x a +:+ String c b) with (String x (a +:+ String c b)).
    simpl. by rewrite IH.
Qed.

(** X11. What stands before an [@] and after a [:] in the network
    location is not the host: with user information in front and a port
    behind, the host is still recognised, and for youtu.be the result is
    the path after its first character. *)
Theorem userinfo_and_port_are_not_the_host url p user host port :
  urlparse url = Ok p →
  netloc p = user +:+ "@" +:+ host +:+ ":" +:+ port →
  host ∈ ["youtu.be"; "youtube.com"; "www.youtube.com"] →
  Py.contains "@" port = false → Py.contains "[" port = false →
  hostname p = Some host
  ∧ (host = "youtu.be" →
     get_youtube_video_id url = Ok (Some (Py.drop 1 (path p)))).
Proof.
  intros Hp Hnl Hhost Hat Hbr.
  assert (Hh : hostname p = Some host).
  { unfold hostname, _hostinfo. rewrite Hnl.
    change ("@" +:+ ?s) with (String "@" s).
    change (":" +:+ ?s) with (String ":" s).
    rewrite rpartition_append_found.
    2:{ rewrite contains_append. simpl. rewrite Hat. by each_of Hhost. }
    rewrite (partition_absent "[").
    2:{ rewrite contains_append. simpl. rewrite Hbr. by each_of Hhost. }
    simpl Py.truthy. cbv iota.
    rewrite partition_append_found by (by each_of Hhost).
    by each_of Hhost. }
  split; [done|]. intros ->. by apply video_id_youtu_be.
Qed.

(** X12. Extraction reads three parts of the parsed URL and no other: two
    URLs that parse with the same network location, the same path and the
    same query string give the same outcome, whatever their schemes,
    path parameters and fragments. *)
Theorem only_netloc_path_query_are_read url1 url2 p1 p2 :
  urlparse url1 = Ok p1 → urlparse url2 = Ok p2 →
  netloc p1 = netloc p2 → path p1 = path p2 → query p1 = query p2 →
  get_youtube_video_id url1 = get_youtube_video_id url2.
Proof.
  intros Hp1 Hp2 Hnl Hpath Hquery.
  unfold get_youtube_video_id. rewrite Hp1, Hp2.
  unfold mbind, exc_bind. cbv beta iota zeta.
  unfold hostname. by rewrite Hnl, Hpath, Hquery.
Qed.

End PartsRead.

(** ** Further concrete inputs *)

Section FurtherConcrete.
Import UrlLib YouTubeTools Spec Scenario Shape.

Lemma calls_only_for_youtube_hosts_witness :
  ∃ p, urlparse (H := ascii_only) watch_url = Ok p
       ∧ hostname (H := ascii_only) p
         ∈ [Some "youtu.be"; Some "youtube.com"; Some "www.youtube.com"].
Proof.
  apply (calls_only_for_youtube_hosts (H := ascii_only) answering
           {| App.url := watch_url; App.languages := None |}).
  left. vm_compute. discriminate.
Defined.


Lemma oembed_query_round_trip_witness :
  ∃ query_string,
    calls (get_video_data (H := ascii_only) answering watch_url)
    = [UrlOpen ("https://www.youtube.com/oembed?" +:+ query_string)]
    ∧ parse_qsl (H := ascii_only) query_string
      = [("format", "json");
         ("url", "https://www.youtube.com/watch?v=" +:+ "dQw4w9WgXcQ")].
Proof.
  exact (oembed_query_round_trip (H := ascii_only) answering watch_url
           "dQw4w9WgXcQ" watch_url_resolves eq_refl).
Defined.

Lemma leading_blanks_and_line_ends_ignored_witness :
  get_youtube_video_id (H := ascii_only)
    ("  " +:+ "https://youtu.be/abc" +:+ String LF "def")
  = get_youtube_video_id (H := ascii_only) ("https://youtu.be/abc" +:+ "def").
Proof.
  apply (leading_blanks_and_line_ends_ignored (H := ascii_only)
           "  " "https://youtu.be/abc" "def" LF).
  - reflexivity.
  - by_evaluation.
Defined.

Lemma segment_is_cut_at_next_slash_witness :
  get_youtube_video_id (H := ascii_only)
    "https://www.youtube.com/embed/abc/def?x=1"
  = Ok (Some "abc").
Proof.
  refine (proj1 (segment_is_cut_at_next_slash (H := ascii_only)
                   "https://www.youtube.com/embed/abc/def?x=1" embed_parsed
                   "/embed/" "abc/def" _ _ _ _)).
  - vm_compute. reflexivity.
  - by_evaluation.
  - by_evaluation.
  - reflexivity.
Defined.

Lemma host_case_is_ignored_witness :
  get_youtube_video_id (H := ascii_only) "HTTPS://YouTu.BE/abc"
  = Ok (Some "abc").
Proof.
  refine (proj1 (proj2 (host_case_is_ignored (H := ascii_only)
                          "HTTPS://YouTu.BE/abc" mixed_case_parsed "youtu.be"
                          _ _ _)) eq_refl).
  - vm_compute. reflexivity.
  - reflexivity.
  - by_evaluation.
Defined.

Lemma extraction_returns_on_ascii_urls_witness :
  ∃ found, get_youtube_video_id (H := ascii_only) watch_url = Ok found.
Proof.
  apply (extraction_returns_on_ascii_urls (H := ascii_only) watch_url).
  reflexivity.
Defined.

Lemma userinfo_and_port_are_not_the_host_witness :
  get_youtube_video_id (H := ascii_only) "https://someone@youtu.be:443/abc"
  = Ok (Some "abc").
Proof.
  refine (proj2 (userinfo_and_port_are_not_the_host (H := ascii_only)
                   "https://someone@youtu.be:443/abc" with_port_parsed
                   "someone" "youtu.be" "443" _ _ _ _ _) eq_refl).
  - vm_compute. reflexivity.
  - reflexivity.
  - by_evaluation.
  - reflexivity.
  - reflexivity.
Defined.

Lemma only_netloc_path_query_are_read_witness :
  get_youtube_video_id (H := ascii_only) "ftp://youtu.be/dQw4w9WgXcQ?t=10#top"
  = get_youtube_video_id (H := ascii_only) "https://youtu.be/dQw4w9WgXcQ?t=10".
Proof.
  refine (only_netloc_path_query_are_read (H := ascii_only)
            "ftp://youtu.be/dQw4w9WgXcQ?t=10#top"
            "https://youtu.be/dQw4w9WgXcQ?t=10"
            {| scheme := "ftp"; netloc := "youtu.be"; path := "/dQw4w9WgXcQ";
               params := ""; query := "t=10"; fragment := "top" |}
            short_parsed _ _ _ _ _).
  - vm_compute. reflexivity.
  - vm_compute. reflexivity.
  - reflexivity.
  - reflexivity.
  - reflexivity.
Defined.

(** A host name in front of an [@] is user information, not the host. *)
Example host_before_at_is_not_the_host :
  get_youtube_video_id (H := ascii_only) "https://youtu.be@example.org/abc"
  = Ok None.
Proof. vm_compute. reflexivity. Qed.

End FurtherConcrete.
